(** * Batch video transcription: subtitle rendering, file discovery and the
      per-video pipeline

    Shallow embedding of [batch_process.py] and
    [src/video_english_recognition.py].

    - Python [str] values are [string]s whose characters stand for the code
      points below 256.
    - Segment times are Python floats.  They are embedded as rationals and
      [//], [%] and [*] as the exact operations; on inputs where every
      intermediate value is a binary fraction that a double holds exactly
      (such as 3725.5) both agree.
    - The file system is a finite map from paths to file contents; the two
      external collaborators (media decoding and the recognition model) and
      the faults of I/O calls are fields of an environment record.
      Directories are not part of it, so [os.makedirs] has no counterpart.
    - A recognizer object holds nothing but its model, and the model is what
      the environment's [transcribe_result] stands for; the [self] and
      [model] arguments are therefore left out. *)

From Stdlib Require Import Ascii QArith Qround.
From stdpp Require Import gmap strings list sorting pretty.

Close Scope Q_scope.
Local Open Scope Z_scope.

(** ** Python string helpers *)

Module Py.

Definition nl : string := String "010"%char "".

(** [str.isspace] on one character (code points below 256). *)
Definition isspace (c : ascii) : bool :=
  let n := N_of_ascii c in
  ((9 <=? n) && (n <=? 13) || (28 <=? n) && (n <=? 32)
   || (n =? 133) || (n =? 160))%N.

Fixpoint lstrip (s : string) : string :=
  match s with
  | "" => ""
  | String c s' => if isspace c then lstrip s' else s
  end.

Definition rstrip (s : string) : string :=
  String.rev (lstrip (String.rev s)).

(** [s.strip()] *)
Definition strip (s : string) : string := rstrip (lstrip s).

(** Truth value of a [str]: non-empty. *)
Definition truthy (s : string) : bool :=
  match s with "" => false | _ => true end.

Fixpoint map_chars (f : ascii → ascii) (s : string) : string :=
  match s with
  | "" => ""
  | String c s' => String (f c) (map_chars f s')
  end.

(** [s.upper()]; exact on ASCII, which is all the extension literals
    contain. *)
Definition upper_char (c : ascii) : ascii :=
  let n := N_of_ascii c in
  if ((97 <=? n) && (n <=? 122))%N then ascii_of_N (n - 32) else c.
Definition upper : string → string := map_chars upper_char.

(** [s.lower()] on code points below 256. *)
Definition lower_char (c : ascii) : ascii :=
  let n := N_of_ascii c in
  if ((65 <=? n) && (n <=? 90)
      || (192 <=? n) && (n <=? 222) && negb (n =? 215))%N
  then ascii_of_N (n + 32) else c.
Definition lower : string → string := map_chars lower_char.

Definition startswith (s p : string) : bool := String.prefix p s.
Definition endswith (s p : string) : bool :=
  String.prefix (String.rev p) (String.rev s).

(** [s.replace(old, new)] for a non-empty [old]: scan from the left,
    replacing every non-overlapping occurrence.  [skip] counts the
    characters of an occurrence just replaced that are still to be
    passed over. *)
Fixpoint replace_go (old new : string) (skip : nat) (s : string) : string :=
  match s with
  | "" => ""
  | String c s' =>
      match skip with
      | S k => replace_go old new k s'
      | O =>
          if String.prefix old s
          then new +:+ replace_go old new (String.length old - 1) s'
          else String c (replace_go old new 0 s')
      end
  end.

(** With an empty [old], Python puts [new] before every character and at
    the end. *)
Fixpoint intersperse (new s : string) : string :=
  match s with
  | "" => new
  | String c s' => new +:+ String c (intersperse new s')
  end.

Definition replace (s old new : string) : string :=
  match old with
  | "" => intersperse new s
  | _ => replace_go old new 0 s
  end.

(** [s.split(sep)] for a one-character separator. *)
Fixpoint split_go (sep : ascii) (cur : string) (s : string) : list string :=
  match s with
  | "" => [String.rev cur]
  | String c s' =>
      if decide (c = sep) then String.rev cur :: split_go sep "" s'
      else split_go sep (String c cur) s'
  end.
Definition split (s : string) (sep : ascii) : list string :=
  split_go sep "" s.

(** [s.rfind(c)] for one character, [None] for -1. *)
Fixpoint rfind_go (c : ascii) (i : nat) (best : option nat) (s : string)
  : option nat :=
  match s with
  | "" => best
  | String d s' =>
      rfind_go c (S i) (if decide (d = c) then Some i else best) s'
  end.
Definition rfind (s : string) (c : ascii) : option nat := rfind_go c 0 None s.

(** [s[:i]] *)
Definition take (i : nat) (s : string) : string := String.substring 0 i s.

(** [sep.join(l)] *)
Fixpoint join (sep : string) (l : list string) : string :=
  match l with
  | [] => ""
  | [x] => x
  | x :: l' => x +:+ sep +:+ join sep l'
  end.

(** [enumerate(l, start)] *)
Fixpoint enumerate {A} (start : nat) (l : list A) : list (nat * A) :=
  match l with
  | [] => []
  | x :: l' => (start, x) :: enumerate (S start) l'
  end.

Fixpoint zeros (n : nat) : string :=
  match n with O => "" | S n' => String "0"%char (zeros n') end.

(** [f"{z:0{width}d}"]: sign first, then zero padding up to [width]. *)
Definition format_0d (width : nat) (z : Z) : string :=
  if decide (z < 0)
  then let d := pretty (Z.abs_N z) in
       "-" +:+ zeros (width - 1 - String.length d) +:+ d
  else let d := pretty (Z.to_N z) in
       zeros (width - String.length d) +:+ d.

(** [x // y] and [x % y] on numbers, [int(x)]. *)
Definition floordiv (x y : Q) : Q := inject_Z (Qfloor (x / y)).
Definition mod_ (x y : Q) : Q := (x - y * inject_Z (Qfloor (x / y)))%Q.
Definition int (x : Q) : Z :=
  if Qle_bool 0 x then Qfloor x else Qceiling x.

End Py.

(** ** Transcription records *)

Record segment := Segment {
  seg_start : Q;
  seg_end : Q;
  seg_text : string
}.

Record transcription := Transcription {
  tr_text : string;
  tr_segments : list segment
}.

(** ** [os.path] and [pathlib], POSIX flavour *)

Module OsPath.

(** [os.path.join(a, b)] *)
Definition join (a b : string) : string :=
  if Py.startswith b "/" then b
  else if negb (Py.truthy a) || Py.endswith a "/" then a +:+ b
  else a +:+ "/" +:+ b.

(** [Path(p).name]: the last component, empty and [.] components
    dropped. *)
Definition name (p : string) : string :=
  let parts :=
    List.filter (λ c, Py.truthy c && negb (String.eqb c "."))
                (Py.split p "/"%char) in
  List.last parts "".

(** [Path(p).stem]: the name without its last suffix; a leading or a
    trailing dot starts no suffix. *)
Definition stem (p : string) : string :=
  let n := name p in
  match Py.rfind n "."%char with
  | Some i =>
      if (0 <? i)%nat && (i <? String.length n - 1)%nat
      then Py.take i n else n
  | None => n
  end.

End OsPath.

(** ** The world: files, external collaborators, faults *)

Inductive file_content :=
  | Media
  | Waveform (video_path : string)
  | JsonDump (result : transcription)
  | TextReport (result : transcription)
  | SrtText (text : string).

(** What the program does to the outside, in order.  Of standard output the
    trace keeps the diagnostics of failures and the skip notice; banners and
    progress lines are left out. *)
Inductive event :=
  | LoadModel
  | DecodeAudio (video_path audio_path : string)
  | Transcribe (audio_path : string)
  | WriteFile (path : string)
  | RemoveFile (path : string)
  | Print (line : string).

Record world := World {
  files : gmap string file_content;
  trace : list event
}.

(** The behaviour of everything the program does not control.  A fault is
    the [str(e)] of the exception raised; the outcome of a call is taken to
    depend on its arguments only. *)
Record env := Env {
  casefold : bool;                      (* does fnmatch fold case *)
  listdir : string → list string;       (* names in a folder *)
  ffmpeg_probe : bool;                  (* [ffmpeg.exe -version] ran and returned 0 *)
  load_model_raises : option string;    (* [whisper.load_model] *)
  decode_raises : string → string → option string;
                                        (* [VideoFileClip(v).audio.write_audiofile(a)] *)
  transcribe_result : string → string + transcription;
                                        (* [model.transcribe(a)], [inl]: raises *)
  open_raises : string → option string; (* [open(p, "w")] *)
  remove_raises : string → option string (* [os.remove(p)] *)
}.

(** Computations that read and change the world and may raise. *)
Inductive outcome (A : Type) :=
  | Ok (a : A)
  | Raise (msg : string).
Arguments Ok {A} a.
Arguments Raise {A} msg.

Definition M (A : Type) : Type := world → outcome A * world.

Global Instance M_ret : MRet M := λ A a w, (Ok a, w).
Global Instance M_bind : MBind M := λ A B f m w,
  match m w with
  | (Ok a, w') => f a w'
  | (Raise msg, w') => (Raise msg, w')
  end.

Definition raise {A} (msg : string) : M A := λ w, (Raise msg, w).

(** [try: body / except Exception as e: handler(str(e))] *)
Definition try_except {A} (body : M A) (handler : string → M A) : M A := λ w,
  match body w with
  | (Ok a, w') => (Ok a, w')
  | (Raise msg, w') => handler msg w'
  end.

Definition emit (ev : event) : M unit := λ w,
  (Ok (), World (files w) (trace w ++ [ev])).

(** [os.path.exists(p)] *)
Definition path_exists (p : string) : M bool := λ w,
  (Ok (bool_decide (is_Some (files w !! p))), w).

Section primitives.
Variable E : env.

(** [with open(p, "w") as f: f.write(...)] *)
Definition write_file (p : string) (c : file_content) : M unit := λ w,
  match open_raises E p with
  | Some msg => (Raise msg, w)
  | None => (Ok (), World (<[p := c]> (files w)) (trace w ++ [WriteFile p]))
  end.

(** [os.remove(p)] *)
Definition remove_file (p : string) : M unit := λ w,
  match remove_raises E p with
  | Some msg => (Raise msg, w)
  | None => (Ok (), World (delete p (files w)) (trace w ++ [RemoveFile p]))
  end.

(** [whisper.load_model(size)] *)
Definition load_model : M unit :=
  emit LoadModel;;
  match load_model_raises E with
  | Some msg => raise msg
  | None => mret ()
  end.

(** The decoding of a video's audio track into a waveform file. *)
Definition write_audiofile (video_path audio_path : string) : M unit :=
  emit (DecodeAudio video_path audio_path);;
  match decode_raises E video_path audio_path with
  | Some msg => raise msg
  | None => λ w,
      (Ok (), World (<[audio_path := Waveform video_path]> (files w)) (trace w))
  end.

(** [model.transcribe(audio_path, language="en", verbose=False)] *)
Definition model_transcribe (audio_path : string) : M transcription :=
  emit (Transcribe audio_path);;
  match transcribe_result E audio_path with
  | inl msg => raise msg
  | inr r => mret r
  end.

End primitives.

(** ** The recognizer, [VideoEnglishRecognizer]

    Both source files carry their own copy of [format_time_srt] and
    [generate_srt_file]; each copy is embedded in its module. *)

(** The dictionary returned by [process_video]; its [processing_time], a
    reading of the clock, is left out. *)
Inductive result :=
  | Success (video_path output_path : string) (transcription : transcription)
  | Failure (error video_path : string).

Module Recognizer.
Section with_env.
Variable E : env.

(** [__init__]: loads the model. *)
Definition init : M unit := load_model E.

Definition extract_audio_from_video (video_path : string)
    (audio_path : option string) : M (option string) :=
  let audio_path :=
    match audio_path with
    | Some p => p
    | None =>
        let video_name := Py.replace (OsPath.stem video_path) " " "_" in
        video_name +:+ "_audio.wav"
    end in
  try_except
    (write_audiofile E video_path audio_path;;
     mret (Some audio_path))
    (λ e, emit (Print ("Audio extraction failed: " +:+ e));; mret None).

Definition transcribe_audio (audio_path : string)
  : M (option transcription) :=
  present ← path_exists audio_path;
  if negb present
  then emit (Print ("Audio file not found: " +:+ audio_path));; mret None
  else
    try_except
      (r ← model_transcribe E audio_path; mret (Some r))
      (λ e, emit (Print ("Transcription failed: " +:+ e));; mret None).

Definition format_time_srt (seconds : Q) : string :=
  let hours := Py.int (Py.floordiv seconds 3600) in
  let minutes := Py.int (Py.floordiv (Py.mod_ seconds 3600) 60) in
  let secs := Py.int (Py.mod_ seconds 60) in
  let millisecs := Py.int (Py.mod_ seconds 1 * 1000)%Q in
  Py.format_0d 2 hours +:+ ":" +:+ Py.format_0d 2 minutes +:+ ":" +:+
  Py.format_0d 2 secs +:+ "," +:+ Py.format_0d 3 millisecs.

(** One pass of the loop of [generate_srt_file]; [srt_content] is the list
    built so far. *)
Definition srt_step (srt_content : list string) (p : nat * segment)
  : list string :=
  let '(i, segment) := p in
  let start_time := format_time_srt (seg_start segment) in
  let end_time := format_time_srt (seg_end segment) in
  let text := Py.strip (seg_text segment) in
  if Py.truthy text
  then srt_content ++
       [pretty i +:+ Py.nl +:+ start_time +:+ " --> " +:+ end_time +:+
        Py.nl +:+ text +:+ Py.nl]
  else srt_content.

Definition srt_content (r : transcription) : list string :=
  foldl srt_step [] (Py.enumerate 1 (tr_segments r)).

Definition generate_srt_file (r : transcription) (srt_path : string)
  : M bool :=
  try_except
    (let srt_content := srt_content r in
     write_file E srt_path (SrtText (Py.join Py.nl srt_content));;
     mret true)
    (λ e, emit (Print ("Failed to generate SRT file: " +:+ e));; mret false).

Definition save_transcription (r : transcription) (output_path : string)
  : M unit :=
  try_except
    (let json_path := Py.replace output_path ".txt" ".json" in
     write_file E json_path (JsonDump r);;
     let srt_path := Py.replace output_path "_transcription.txt" ".srt" in
     srt_success ← generate_srt_file r srt_path;
     write_file E output_path (TextReport r))
    (λ e, emit (Print ("Failed to save transcription results: " +:+ e))).

Definition process_video (video_path output_dir : string)
    (clean_audio : bool) : M (option result) :=
  present ← path_exists video_path;
  if negb present
  then emit (Print ("Error: Video file not found - " +:+ video_path));;
       mret None
  else
    let video_name := Py.replace (OsPath.stem video_path) " " "_" in
    let audio_path := OsPath.join output_dir (video_name +:+ "_audio.wav") in
    let output_path :=
      OsPath.join output_dir (video_name +:+ "_transcription.txt") in
    try_except
      (audio_file ← extract_audio_from_video video_path (Some audio_path);
       match audio_file with
       | None => mret None
       | Some audio_file =>
           if negb (Py.truthy audio_file) then mret None
           else
             transcription_result ← transcribe_audio audio_file;
             match transcription_result with
             | None => mret None
             | Some transcription_result =>
                 save_transcription transcription_result output_path;;
                 (if clean_audio
                  then present ← path_exists audio_file;
                       if (present : bool)
                       then remove_file E audio_file else mret ()
                  else mret ());;
                 mret (Some (Success video_path output_path
                                     transcription_result))
             end
       end)
      (λ e, emit (Print ("Error occurred while processing video: " +:+ e));;
            mret (Some (Failure e video_path))).

End with_env.
End Recognizer.

(** ** The batch driver *)

(** How [main] ends: one of its three early returns, or the summary it
    prints. *)
Inductive main_outcome :=
  | FFmpegFailed
  | NoVideos
  | ModelLoadFailed
  | Summary (results : list (string * bool * string)) (successful failed : nat).

Module BatchProcess.
Section with_env.
Variable E : env.

Definition setup_environment : M bool := mret (ffmpeg_probe E).

Definition video_extensions : list string :=
  [".mp4"; ".avi"; ".mov"; ".mkv"; ".wmv"; ".flv"; ".webm"; ".m4v"].

(** [fnmatch] of a name against the pattern [*suffix]. *)
Definition fnmatch_star (name suffix : string) : bool :=
  if casefold E then Py.endswith (Py.lower name) (Py.lower suffix)
  else Py.endswith name suffix.

(** [glob.glob(os.path.join(folder, "*" + suffix))] for a plain folder
    name: the entries that match, dot files excluded, each joined to the
    folder. *)
Definition glob_star (folder suffix : string) : list string :=
  OsPath.join folder <$>
    List.filter (λ n, negb (Py.startswith n ".") && fnmatch_star n suffix)
                (listdir E folder).

Definition get_video_files (input_folder : string) : list string :=
  let video_files :=
    foldl (λ video_files ext,
             (video_files ++ glob_star input_folder ext)
             ++ glob_star input_folder (Py.upper ext))
          [] video_extensions in
  merge_sort String.le (elements (list_to_set video_files : gset string)).

Definition format_time_srt (seconds : Q) : string :=
  let hours := Py.int (Py.floordiv seconds 3600) in
  let minutes := Py.int (Py.floordiv (Py.mod_ seconds 3600) 60) in
  let secs := Py.int (Py.mod_ seconds 60) in
  let millisecs := Py.int (Py.mod_ seconds 1 * 1000)%Q in
  Py.format_0d 2 hours +:+ ":" +:+ Py.format_0d 2 minutes +:+ ":" +:+
  Py.format_0d 2 secs +:+ "," +:+ Py.format_0d 3 millisecs.

(** One pass of the loop of [generate_srt_file]; [srt_content] is the list
    built so far. *)
Definition srt_step (srt_content : list string) (p : nat * segment)
  : list string :=
  let '(i, segment) := p in
  let start_time := format_time_srt (seg_start segment) in
  let end_time := format_time_srt (seg_end segment) in
  let text := Py.strip (seg_text segment) in
  if Py.truthy text
  then srt_content ++
       [pretty i +:+ Py.nl +:+ start_time +:+ " --> " +:+ end_time +:+
        Py.nl +:+ text +:+ Py.nl]
  else srt_content.

Definition srt_content (transcription_result : transcription)
  : list string :=
  foldl srt_step [] (Py.enumerate 1 (tr_segments transcription_result)).

Definition generate_srt_file (transcription_result : transcription)
    (output_path : string) : M bool :=
  try_except
    (let srt_content := srt_content transcription_result in
     write_file E output_path (SrtText (Py.join Py.nl srt_content));;
     mret true)
    (λ e, emit (Print ("Failed to generate SRT file: " +:+ e));; mret false).

Definition process_single_video (video_path output_folder : string)
  : M (bool * string) :=
  try_except
    (Recognizer.init E;;
     let video_name := OsPath.stem video_path in
     let output_file :=
       OsPath.join output_folder (video_name +:+ "_transcription.txt") in
     let json_file :=
       OsPath.join output_folder (video_name +:+ "_transcription.json") in
     let srt_file := OsPath.join output_folder (video_name +:+ ".srt") in
     has_txt ← path_exists output_file;
     has_json ← path_exists json_file;
     has_srt ← path_exists srt_file;
     if has_txt && has_json && has_srt
     then emit (Print ("Skipping " +:+ video_name +:+ " (already processed)"));;
          mret (true, "Already processed: " +:+ video_name)
     else
       result ← Recognizer.process_video E video_path output_folder true;
       match result with
       | None => raise "'NoneType' object is not subscriptable"
       | Some (Success _ _ transcription) =>
           srt_ok ← generate_srt_file transcription srt_file;
           if (srt_ok : bool)
           then mret (true, "Successfully processed: " +:+ video_name +:+
                            " (TXT, JSON, SRT created)")
           else mret (true, "Successfully processed: " +:+ video_name +:+
                            " (TXT, JSON created, SRT failed)")
       | Some (Failure error _) =>
           mret (false, "Failed to process: " +:+ video_name +:+ " - " +:+
                        error)
       end)
    (λ e, mret (false, "Error processing " +:+ OsPath.name video_path +:+
                       ": " +:+ e)).

(** The loop of [main] over the discovered files; [results] is the list
    built so far. *)
Fixpoint process_each (video_files : list string) (output_folder : string)
    (results : list (string * bool * string))
  : M (list (string * bool * string)) :=
  match video_files with
  | [] => mret results
  | video_file :: rest =>
      let video_name := OsPath.name video_file in
      '(success, message) ← process_single_video video_file output_folder;
      process_each rest output_folder
                   (results ++ [(video_name, success, message)])
  end.

Definition main : M main_outcome :=
  ffmpeg_ok ← setup_environment;
  if negb ffmpeg_ok then mret FFmpegFailed
  else
    let input_folder := "input_videos" in
    let output_folder := "output_transcriptions" in
    let video_files := get_video_files input_folder in
    match video_files with
    | [] => mret NoVideos
    | _ =>
        loaded ← try_except
                   (load_model E;; mret true)
                   (λ e, emit (Print ("Failed to load Whisper model: " +:+ e));;
                         mret false);
        if negb loaded then mret ModelLoadFailed
        else
          results ← process_each video_files output_folder [];
          let successful :=
            length (List.filter (λ r, snd (fst r)) results) in
          let failed := (length results - successful)%nat in
          mret (Summary results successful failed)
    end.

End with_env.
End BatchProcess.

(** ** Vocabulary of the statements *)

(** Does [generate_srt_file] write an entry for this segment. *)
Definition emitted (s : segment) : bool := Py.truthy (Py.strip (seg_text s)).

(** The entry written for segment [s] under index [i]. *)
Definition srt_entry (i : nat) (s : segment) : string :=
  pretty i +:+ Py.nl +:+ BatchProcess.format_time_srt (seg_start s) +:+
  " --> " +:+ BatchProcess.format_time_srt (seg_end s) +:+ Py.nl +:+
  Py.strip (seg_text s) +:+ Py.nl.


(** The entries numbered by the position of their segment in the record. *)
Definition positional_srt (segs : list segment) : list string :=
  (λ p, srt_entry p.1 p.2) <$>
    List.filter (λ p, emitted p.2) (imap (λ k s, (S k, s)) segs).

(** A name that [glob]'s [*] can stand for: not a dot file. *)
Definition visible (n : string) : bool := negb (Py.startswith n ".").

(** Does the name match one of the sixteen patterns. *)
Definition is_video_name (E : env) (n : string) : bool :=
  existsb (λ ext, BatchProcess.fnmatch_star E n ext ||
                  BatchProcess.fnmatch_star E n (Py.upper ext))
          BatchProcess.video_extensions.

(** [c in s] *)
Fixpoint has_char (c : ascii) (s : string) : bool :=
  match s with
  | "" => false
  | String d s' => bool_decide (d = c) || has_char c s'
  end.

(** The paths of the three artifacts as the batch driver names them. *)
Definition txt_artifact (output_folder video_path : string) : string :=
  OsPath.join output_folder (OsPath.stem video_path +:+ "_transcription.txt").
Definition json_artifact (output_folder video_path : string) : string :=
  OsPath.join output_folder (OsPath.stem video_path +:+ "_transcription.json").
Definition srt_artifact (output_folder video_path : string) : string :=
  OsPath.join output_folder (OsPath.stem video_path +:+ ".srt").

(** The paths [process_video] and [save_transcription] compute. *)
Definition audio_path (output_dir video_path : string) : string :=
  OsPath.join output_dir
    (Py.replace (OsPath.stem video_path) " " "_" +:+ "_audio.wav").
Definition output_path (output_dir video_path : string) : string :=
  OsPath.join output_dir
    (Py.replace (OsPath.stem video_path) " " "_" +:+ "_transcription.txt").
Definition json_path (output_dir video_path : string) : string :=
  Py.replace (output_path output_dir video_path) ".txt" ".json".
Definition srt_path (output_dir video_path : string) : string :=
  Py.replace (output_path output_dir video_path) "_transcription.txt" ".srt".

Definition present (w : world) (p : string) : Prop := is_Some (files w !! p).

(** The driver's "already processed" test. *)
Definition already_processed (w : world) (output_folder video_path : string)
  : Prop :=
  present w (txt_artifact output_folder video_path) ∧
  present w (json_artifact output_folder video_path) ∧
  present w (srt_artifact output_folder video_path).

(** A world after one more write, and after one more printed line. *)
Definition wrote (w : world) (p : string) (c : file_content) : world :=
  World (<[p := c]> (files w)) (trace w ++ [WriteFile p]).
Definition logged (w : world) (line : string) : world :=
  World (files w) (trace w ++ [Print line]).

(** The subtitle file as either generator writes it. *)
Definition srt_file_of (r : transcription) : file_content :=
  SrtText (Py.join Py.nl (BatchProcess.srt_content r)).



(** The world [save_transcription] leaves: the JSON dump, the subtitle file
    and the text report, each written unless its [open] raises; a fault of
    the JSON or the text [open] ends the function with a printed line. *)
Definition after_save (E : env) (r : transcription)
    (output_dir video_path : string) (w : world) : world :=
  match open_raises E (json_path output_dir video_path) with
  | Some msg => logged w ("Failed to save transcription results: " +:+ msg)
  | None =>
      let w1 := wrote w (json_path output_dir video_path) (JsonDump r) in
      let w2 :=
        match open_raises E (srt_path output_dir video_path) with
        | None => wrote w1 (srt_path output_dir video_path) (srt_file_of r)
        | Some msg => logged w1 ("Failed to generate SRT file: " +:+ msg)
        end in
      match open_raises E (output_path output_dir video_path) with
      | None => wrote w2 (output_path output_dir video_path) (TextReport r)
      | Some msg =>
          logged w2 ("Failed to save transcription results: " +:+ msg)
      end
  end.

(** The world after the audio track of a video was decoded and
    transcribed. *)
Definition after_transcribe (output_dir video_path : string) (w : world)
  : world :=
  World (<[audio_path output_dir video_path := Waveform video_path]> (files w))
        (trace w ++ [DecodeAudio video_path (audio_path output_dir video_path);
                     Transcribe (audio_path output_dir video_path)]).

(** ** Sample inputs *)

Definition sample_record : transcription :=
  Transcription " Hello world." [Segment 0 (5 # 2) " Hello world."].

(** An environment in which nothing fails, over an input folder that lists
    [names]. *)
Definition calm_env (names : list string) : env :=
  {| casefold := false;
     listdir := λ _, names;
     ffmpeg_probe := true;
     load_model_raises := None;
     decode_raises := λ _ _, None;
     transcribe_result := λ _, inr sample_record;
     open_raises := λ _, None;
     remove_raises := λ _, None |}.

(** The same, but the videos have no audio track: [video.audio] is [None]. *)
Definition silent_env (names : list string) : env :=
  {| casefold := false;
     listdir := λ _, names;
     ffmpeg_probe := true;
     load_model_raises := None;
     decode_raises := λ _ _,
       Some "'NoneType' object has no attribute 'write_audiofile'";
     transcribe_result := λ _, inr sample_record;
     open_raises := λ _, None;
     remove_raises := λ _, None |}.

(** The same as [calm_env], but no file can be removed. *)
Definition locked_env (names : list string) : env :=
  {| casefold := false;
     listdir := λ _, names;
     ffmpeg_probe := true;
     load_model_raises := None;
     decode_raises := λ _ _, None;
     transcribe_result := λ _, inr sample_record;
     open_raises := λ _, None;
     remove_raises := λ _, Some "[Errno 13] Permission denied" |}.

(** The same as [calm_env], but no file whose name ends in [suffix] can be
    opened for writing. *)
Definition readonly_env (suffix : string) (names : list string) : env :=
  {| casefold := false;
     listdir := λ _, names;
     ffmpeg_probe := true;
     load_model_raises := None;
     decode_raises := λ _ _, None;
     transcribe_result := λ _, inr sample_record;
     open_raises := λ p,
       if Py.endswith p suffix then Some "[Errno 13] Permission denied"
       else None;
     remove_raises := λ _, None |}.

(** A world that holds the given files and in which nothing has happened. *)
Definition stocked (paths : list string) : world :=
  World (list_to_map ((λ p, (p, Media)) <$> paths)) [].

(** The entry of [results] for a video that the driver skipped. *)
Definition skip_result (video_file : string) : string * bool * string :=
  (OsPath.name video_file, true,
   "Already processed: " +:+ OsPath.stem video_file).

(** What a skipped video adds to the trace. *)
Definition skip_events (video_file : string) : list event :=
  [LoadModel;
   Print ("Skipping " +:+ OsPath.stem video_file +:+ " (already processed)")].

(** ** More vocabulary: the ways a video can go, what a run may touch *)

(** The ways [process_video] can go, by what the environment does, each with
    the result returned and the world left. *)
Inductive pv_case (E : env) (video_path output_dir : string) (clean : bool)
    (w : world) : option result → world → Prop :=
  | pv_missing :
      ¬ present w video_path →
      pv_case E video_path output_dir clean w None
        (logged w ("Error: Video file not found - " +:+ video_path))
  | pv_no_audio msg :
      present w video_path →
      decode_raises E video_path (audio_path output_dir video_path) = Some msg →
      pv_case E video_path output_dir clean w None
        (logged (World (files w)
                   (trace w ++
                    [DecodeAudio video_path (audio_path output_dir video_path)]))
                ("Audio extraction failed: " +:+ msg))
  | pv_no_transcript msg :
      present w video_path →
      decode_raises E video_path (audio_path output_dir video_path) = None →
      transcribe_result E (audio_path output_dir video_path) = inl msg →
      pv_case E video_path output_dir clean w None
        (logged (after_transcribe output_dir video_path w)
                ("Transcription failed: " +:+ msg))
  | pv_kept r :
      present w video_path →
      decode_raises E video_path (audio_path output_dir video_path) = None →
      transcribe_result E (audio_path output_dir video_path) = inr r →
      clean = false →
      pv_case E video_path output_dir clean w
        (Some (Success video_path (output_path output_dir video_path) r))
        (after_save E r output_dir video_path
           (after_transcribe output_dir video_path w))
  | pv_cleaned r :
      present w video_path →
      decode_raises E video_path (audio_path output_dir video_path) = None →
      transcribe_result E (audio_path output_dir video_path) = inr r →
      clean = true →
      remove_raises E (audio_path output_dir video_path) = None →
      pv_case E video_path output_dir clean w
        (Some (Success video_path (output_path output_dir video_path) r))
        (let w3 := after_save E r output_dir video_path
                     (after_transcribe output_dir video_path w) in
         World (delete (audio_path output_dir video_path) (files w3))
               (trace w3 ++ [RemoveFile (audio_path output_dir video_path)]))
  | pv_remove_failed r msg :
      present w video_path →
      decode_raises E video_path (audio_path output_dir video_path) = None →
      transcribe_result E (audio_path output_dir video_path) = inr r →
      clean = true →
      remove_raises E (audio_path output_dir video_path) = Some msg →
      pv_case E video_path output_dir clean w
        (Some (Failure msg video_path))
        (logged (after_save E r output_dir video_path
                   (after_transcribe output_dir video_path w))
                ("Error occurred while processing video: " +:+ msg)).

(** The paths a call of [process_single_video] may write or remove. *)
Definition touched (output_folder video_path : string) : list string :=
  [audio_path output_folder video_path; json_path output_folder video_path;
   srt_path output_folder video_path; output_path output_folder video_path;
   srt_artifact output_folder video_path].

(** Is an event a load of the recognition model. *)
Definition is_load (ev : event) : bool :=
  match ev with LoadModel => true | _ => false end.

(** The message of the [TypeError] that [result["success"]] raises on
    [None]. *)
Definition none_error (video_path : string) : string :=
  "Error processing " +:+ OsPath.name video_path +:+
  ": 'NoneType' object is not subscriptable".

(** The same as [calm_env], but the model cannot transcribe. *)
Definition deaf_env (names : list string) : env :=
  {| casefold := false;
     listdir := λ _, names;
     ffmpeg_probe := true;
     load_model_raises := None;
     decode_raises := λ _ _, None;
     transcribe_result := λ _, inl "CUDA out of memory";
     open_raises := λ _, None;
     remove_raises := λ _, None |}.

(** The number of model loads among some events. *)
Definition count_loads (evs : list event) : nat :=
  length (List.filter is_load evs).




(** ** The rest of the two files *)

(** [sub in s] *)
Fixpoint contains (s sub : string) : bool :=
  String.prefix sub s ||
  match s with
  | "" => false
  | String _ s' => contains s' sub
  end.

(** [setup_environment], its first lines: the value of [PATH] they leave,
    from the working directory and the value found; [os.pathsep] is a
    parameter. *)
Definition path_after_setup (pathsep current_dir current_path : string)
  : string :=
  if negb (contains current_path current_dir)
  then current_dir +:+ pathsep +:+ current_path
  else current_path.

(** How the [main] of the recognizer's file ends. *)
Inductive script_outcome :=
  | DefaultVideoMissing
  | Recognized (output_path : string)
  | NotRecognized (error : option string).

Module VideoEnglishRecognition.
Section with_env.
Variable E : env.

(** [main] of the recognizer's file.  The preview of the text report that
    it prints on success only reads the file and is left out with the
    banners. *)
Definition main : M script_outcome :=
  let default_video := "SRE Basic Overview.mp4" in
  found ← path_exists default_video;
  if negb found
  then emit (Print ("Default video file not found: " +:+ default_video));;
       mret DefaultVideoMissing
  else
    let video_path := default_video in
    Recognizer.init E;;
    result ← Recognizer.process_video E video_path "output" true;
    match result with
    | Some (Success _ output_path _) => mret (Recognized output_path)
    | Some (Failure error _) =>
        emit (Print ("Error message: " +:+ error));;
        mret (NotRecognized (Some error))
    | None => mret (NotRecognized None)
    end.

End with_env.
End VideoEnglishRecognition.

(** ** Vocabulary for timestamps and plain names *)




(** The recognizer and the driver name the three artifacts alike. *)
Definition shares_stem (output_folder video_path : string) : Prop :=
  output_path output_folder video_path = txt_artifact output_folder video_path ∧
  json_path output_folder video_path = json_artifact output_folder video_path ∧
  srt_path output_folder video_path = srt_artifact output_folder video_path.

(** An environment in which no call fails. *)
Definition fault_free (E : env) : Prop :=
  ffmpeg_probe E = true ∧
  load_model_raises E = None ∧
  (∀ v a, decode_raises E v a = None) ∧
  (∀ a, ∃ r, transcribe_result E a = inr r) ∧
  (∀ p, open_raises E p = None) ∧
  (∀ p, remove_raises E p = None).

(** * Properties *)

(** ** The helpers on Python's own examples *)

Example strip_both_ends : Py.strip "  two words  " = "two words".
Proof. reflexivity. Qed.

Example strip_blank : Py.truthy (Py.strip "   ") = false.
Proof. reflexivity. Qed.

Example replace_every_occurrence :
  Py.replace "a b c" " " "_" = "a_b_c" ∧
  Py.replace "aaa" "aa" "b" = "ba" ∧
  Py.replace "ab" "" "-" = "-a-b-" ∧
  Py.replace "out/a.txt_transcription.txt" ".txt" ".json"
    = "out/a.json_transcription.json".
Proof. repeat split; reflexivity. Qed.

Example stem_drops_last_suffix :
  OsPath.stem "input_videos/SRE Basic Overview.mp4" = "SRE Basic Overview" ∧
  OsPath.stem "a/b.tar.gz" = "b.tar" ∧
  OsPath.stem "a/.hidden" = ".hidden" ∧
  OsPath.stem "a/trailing." = "trailing." ∧
  OsPath.name "a/b/" = "b".
Proof. repeat split; reflexivity. Qed.

Example join_inserts_separator :
  OsPath.join "out" "x.srt" = "out/x.srt" ∧
  OsPath.join "out/" "x.srt" = "out/x.srt" ∧
  OsPath.join "" "x.srt" = "x.srt" ∧
  OsPath.join "out" "/x.srt" = "/x.srt".
Proof. repeat split; reflexivity. Qed.

Example format_0d_pads :
  Py.format_0d 2 5 = "05" ∧ Py.format_0d 2 123 = "123" ∧
  Py.format_0d 3 0 = "000" ∧ Py.format_0d 3 (-1) = "-01".
Proof. repeat split; vm_compute; reflexivity. Qed.

Example upper_extension : Py.upper ".m4v" = ".M4V".
Proof. reflexivity. Qed.

Example srt_of_sample :
  srt_file_of sample_record =
    SrtText ("1" +:+ Py.nl +:+ "00:00:00,000 --> 00:00:02,500" +:+ Py.nl +:+
             "Hello world." +:+ Py.nl).
Proof. vm_compute. reflexivity. Qed.


(** ** Time formatting *)

Section time_arithmetic.









End time_arithmetic.


(** ** The subtitle text *)

Section srt_entries.

Lemma srt_step_entry acc i s :
  BatchProcess.srt_step acc (i, s) =
    acc ++ (if emitted s then [srt_entry i s] else []).
Proof.
  unfold BatchProcess.srt_step, emitted, srt_entry.
  destruct (Py.truthy _); [done|]. by rewrite app_nil_r.
Qed.

(** The loop, started at any index with any list already built. *)
Lemma srt_loop_from acc start segs :
  foldl BatchProcess.srt_step acc (Py.enumerate start segs) =
    acc ++ ((λ p, srt_entry p.1 p.2) <$>
            List.filter (λ p, emitted p.2)
                        (imap (λ k s, ((start + k)%nat, s)) segs)).
Proof.
  revert acc start. induction segs as [|s segs IH]; intros acc start.
  - simpl. by rewrite app_nil_r.
  - cbn [Py.enumerate foldl imap List.filter]. rewrite srt_step_entry, IH.
    replace (start + 0)%nat with start by lia.
    rewrite <- app_assoc. f_equal.
    assert (imap ((λ k s0, ((start + k)%nat, s0)) ∘ S) segs =
            imap (λ k s0, ((S start + k)%nat, s0)) segs) as ->.
    { apply imap_ext. intros k x _. simpl. f_equal. lia. }
    cbn [snd]. by destruct (emitted s).
Qed.


Lemma srt_content_positional r :
  BatchProcess.srt_content r = positional_srt (tr_segments r).
Proof.
  unfold BatchProcess.srt_content, positional_srt.
  by rewrite srt_loop_from.
Qed.

End srt_entries.

(** C10: the subtitle generator of the batch driver and that of the
    recognizer, and their time helpers, compute the same: on every
    environment, record, path and world they return the same flag and leave
    the same world, so the same file content. *)
Theorem srt_generators_agree :
  (∀ seconds, Recognizer.format_time_srt seconds =
              BatchProcess.format_time_srt seconds) ∧
  (∀ r, Recognizer.srt_content r = BatchProcess.srt_content r) ∧
  (∀ E r path w, Recognizer.generate_srt_file E r path w =
                 BatchProcess.generate_srt_file E r path w).
Proof. repeat split. Qed.



(** ** File discovery *)

Section discovery.
Variable E : env.
Variable folder : string.

Lemma elem_of_glob_star suffix p :
  p ∈ BatchProcess.glob_star E folder suffix ↔
  ∃ n, n ∈ listdir E folder ∧ p = OsPath.join folder n ∧
       visible n = true ∧ BatchProcess.fnmatch_star E n suffix = true.
Proof.
  unfold BatchProcess.glob_star. rewrite list_elem_of_fmap. split.
  - intros (n & -> & Hn). apply list_elem_of_In, filter_In in Hn.
    destruct Hn as [Hn Hb]. apply andb_true_iff in Hb as [? ?].
    exists n. by rewrite list_elem_of_In.
  - intros (n & Hn & -> & Hv & Hm). exists n. split; [done|].
    apply list_elem_of_In, filter_In. split; [by apply list_elem_of_In|].
    unfold visible in Hv. by rewrite Hv, Hm.
Qed.

(** The accumulation over the extensions, started with any list. *)
Lemma elem_of_glob_loop exts acc p :
  p ∈ foldl (λ video_files ext,
               (video_files ++ BatchProcess.glob_star E folder ext)
               ++ BatchProcess.glob_star E folder (Py.upper ext))
            acc exts ↔
  p ∈ acc ∨
  ∃ n, n ∈ listdir E folder ∧ p = OsPath.join folder n ∧ visible n = true ∧
       existsb (λ ext, BatchProcess.fnmatch_star E n ext ||
                       BatchProcess.fnmatch_star E n (Py.upper ext))
               exts = true.
Proof.
  revert acc. induction exts as [|ext exts IH]; intros acc.
  - simpl. split; [by left|]. intros [?|(n & _ & _ & _ & ?)]; done.
  - cbn [foldl existsb]. rewrite IH, !elem_of_app, !elem_of_glob_star.
    split.
    + intros [[[?|(n & ? & ? & ? & Hm)]|(n & ? & ? & ? & Hm)]
             |(n & ? & ? & ? & Hm)];
        [by left|right; exists n; rewrite Hm, ?orb_true_r; done..].
    + intros [?|(n & ? & ? & ? & Hm)]; [by do 3 left|].
      apply orb_true_iff in Hm as [Hm|Hm].
      * apply orb_true_iff in Hm as [Hm|Hm].
        -- left; left; right. by exists n.
        -- left; right. by exists n.
      * right. by exists n.
Qed.

Lemma elem_of_get_video_files p :
  p ∈ BatchProcess.get_video_files E folder ↔
  ∃ n, n ∈ listdir E folder ∧ p = OsPath.join folder n ∧
       visible n = true ∧ is_video_name E n = true.
Proof.
  unfold BatchProcess.get_video_files.
  rewrite merge_sort_Permutation, elem_of_elements, elem_of_list_to_set.
  rewrite elem_of_glob_loop. split; [|by right].
  intros [H|H]; [by apply elem_of_nil in H|done].
Qed.

Lemma get_video_files_NoDup : NoDup (BatchProcess.get_video_files E folder).
Proof.
  unfold BatchProcess.get_video_files.
  rewrite merge_sort_Permutation. apply NoDup_elements.
Qed.

Lemma get_video_files_sorted :
  StronglySorted String.le (BatchProcess.get_video_files E folder).
Proof. apply (StronglySorted_merge_sort _). Qed.

End discovery.

Section ordering.




End ordering.


(** ** The per-video pipeline *)

(** Membership of an event in the trace of a world built with [logged] and
    [wrote]. *)
Ltac in_trace :=
  unfold logged, wrote; cbn [trace];
  rewrite ?elem_of_app, ?list_elem_of_singleton; auto 10.

Section pipeline.
Variable E : env.

Lemma bind_run {A B} (m : M A) (f : A → M B) w :
  (m ≫= f) w =
    match m w with
    | (Ok a, w') => f a w'
    | (Raise msg, w') => (Raise msg, w')
    end.
Proof. reflexivity. Qed.

Lemma path_exists_present w p : present w p → path_exists p w = (Ok true, w).
Proof. intros H. unfold path_exists. by rewrite bool_decide_eq_true_2. Qed.

Lemma path_exists_absent w p : ¬ present w p → path_exists p w = (Ok false, w).
Proof. intros H. unfold path_exists. by rewrite bool_decide_eq_false_2. Qed.

Lemma load_model_run w :
  load_model E w =
    (match load_model_raises E with None => Ok () | Some msg => Raise msg end,
     World (files w) (trace w ++ [LoadModel])).
Proof. unfold load_model. rewrite bind_run. simpl. by destruct (load_model_raises E). Qed.

Lemma generate_srt_file_run r p w :
  BatchProcess.generate_srt_file E r p w =
    match open_raises E p with
    | None => (Ok true, wrote w p (srt_file_of r))
    | Some msg => (Ok false, logged w ("Failed to generate SRT file: " +:+ msg))
    end.
Proof.
  unfold BatchProcess.generate_srt_file, try_except, write_file.
  rewrite bind_run. by destruct (open_raises E p).
Qed.

Lemma save_transcription_run r output_dir video_path w :
  Recognizer.save_transcription E r (output_path output_dir video_path) w =
    (Ok (), after_save E r output_dir video_path w).
Proof.
  unfold Recognizer.save_transcription, after_save, try_except.
  fold (json_path output_dir video_path) (srt_path output_dir video_path).
  rewrite bind_run. unfold write_file at 1.
  destruct (open_raises E (json_path _ _)) as [msg|]; [done|].
  rewrite bind_run.
  change (Recognizer.generate_srt_file E) with (BatchProcess.generate_srt_file E).
  rewrite generate_srt_file_run.
  destruct (open_raises E (srt_path _ _)) as [msg|];
    unfold write_file; by destruct (open_raises E (output_path _ _)).
Qed.

Lemma after_save_present r output_dir video_path w p :
  present w p → present (after_save E r output_dir video_path w) p.
Proof.
  unfold after_save, present, wrote, logged.
  repeat case_match; simpl; rewrite ?lookup_insert_is_Some'; tauto.
Qed.

(** A path whose [open] raises is not written. *)
Lemma after_save_frame r output_dir video_path w p :
  open_raises E p ≠ None →
  files (after_save E r output_dir video_path w) !! p = files w !! p.
Proof.
  intros Hp. unfold after_save, wrote, logged.
  repeat case_match; simpl; rewrite ?lookup_insert_ne; congruence.
Qed.

Lemma truthy_app_r s t : Py.truthy t = true → Py.truthy (s +:+ t) = true.
Proof. by destruct s. Qed.

Lemma truthy_join a b : Py.truthy b = true → Py.truthy (OsPath.join a b) = true.
Proof.
  intros Hb. unfold OsPath.join. repeat case_match; [done|..];
    repeat apply truthy_app_r; done.
Qed.

Lemma audio_path_truthy output_dir video_path :
  Py.truthy (audio_path output_dir video_path) = true.
Proof. apply truthy_join. by apply truthy_app_r. Qed.

Lemma transcribe_audio_run a w :
  present w a →
  Recognizer.transcribe_audio E a w =
    match transcribe_result E a with
    | inr r => (Ok (Some r), World (files w) (trace w ++ [Transcribe a]))
    | inl msg =>
        (Ok None, logged (World (files w) (trace w ++ [Transcribe a]))
                         ("Transcription failed: " +:+ msg))
    end.
Proof.
  intros Ha. unfold Recognizer.transcribe_audio.
  rewrite bind_run, path_exists_present by done. cbn [negb].
  unfold try_except, model_transcribe. rewrite !bind_run. cbn [emit].
  by destruct (transcribe_result E a).
Qed.

Lemma process_video_transcribed video_path output_dir r w :
  present w video_path →
  decode_raises E video_path (audio_path output_dir video_path) = None →
  transcribe_result E (audio_path output_dir video_path) = inr r →
  Recognizer.process_video E video_path output_dir true w =
    let w3 := after_save E r output_dir video_path
                (after_transcribe output_dir video_path w) in
    match remove_raises E (audio_path output_dir video_path) with
    | None =>
        (Ok (Some (Success video_path (output_path output_dir video_path) r)),
         World (delete (audio_path output_dir video_path) (files w3))
               (trace w3 ++ [RemoveFile (audio_path output_dir video_path)]))
    | Some msg =>
        (Ok (Some (Failure msg video_path)),
         logged w3 ("Error occurred while processing video: " +:+ msg))
    end.
Proof.
  intros Hv Hd Ht. unfold Recognizer.process_video.
  rewrite bind_run, path_exists_present by done. cbn [negb].
  fold (audio_path output_dir video_path) (output_path output_dir video_path).
  unfold try_except at 1. rewrite bind_run.
  unfold Recognizer.extract_audio_from_video, try_except at 1.
  rewrite bind_run. unfold write_audiofile. rewrite bind_run. cbn [emit].
  rewrite Hd. cbn [mret M_ret files trace].
  rewrite audio_path_truthy. cbn [negb].
  rewrite bind_run, transcribe_audio_run, Ht
    by (unfold present; cbn [files]; by rewrite lookup_insert_eq).
  cbn [files trace]. rewrite <- app_assoc. cbn [app].
  fold (after_transcribe output_dir video_path w).
  rewrite bind_run, save_transcription_run.
  rewrite bind_run, bind_run, path_exists_present.
  2:{ apply after_save_present. unfold present, after_transcribe.
      cbn [files]. by rewrite lookup_insert_eq. }
  unfold remove_file.
  by destruct (remove_raises E (audio_path output_dir video_path)).
Qed.
End pipeline.

Section driver.
Variable E : env.

(** What the driver makes of the recognizer's result once the skip test
    has failed. *)
Lemma process_single_video_run video_path output_folder w :
  load_model_raises E = None →
  ¬ already_processed w output_folder video_path →
  BatchProcess.process_single_video E video_path output_folder w =
    match Recognizer.process_video E video_path output_folder true
            (World (files w) (trace w ++ [LoadModel])) with
    | (Ok (Some (Success _ _ r)), w') =>
        match open_raises E (srt_artifact output_folder video_path) with
        | None =>
            (Ok (true, "Successfully processed: " +:+
                       OsPath.stem video_path +:+
                       " (TXT, JSON, SRT created)"),
             wrote w' (srt_artifact output_folder video_path)
                   (srt_file_of r))
        | Some msg =>
            (Ok (true, "Successfully processed: " +:+
                       OsPath.stem video_path +:+
                       " (TXT, JSON created, SRT failed)"),
             logged w' ("Failed to generate SRT file: " +:+ msg))
        end
    | (Ok (Some (Failure error _)), w') =>
        (Ok (false, "Failed to process: " +:+ OsPath.stem video_path +:+
                    " - " +:+ error), w')
    | (Ok None, w') =>
        (Ok (false, "Error processing " +:+ OsPath.name video_path +:+
                    ": 'NoneType' object is not subscriptable"), w')
    | (Raise msg, w') =>
        (Ok (false, "Error processing " +:+ OsPath.name video_path +:+
                    ": " +:+ msg), w')
    end.
Proof.
  intros Hload Hnot.
  unfold BatchProcess.process_single_video, try_except, Recognizer.init.
  rewrite bind_run, load_model_run, Hload.
  fold (txt_artifact output_folder video_path)
       (json_artifact output_folder video_path)
       (srt_artifact output_folder video_path).
  set (w0 := World (files w) (trace w ++ [LoadModel])).
  rewrite !bind_run. unfold path_exists at 1. rewrite bind_run.
  unfold path_exists at 1. rewrite bind_run. unfold path_exists at 1.
  assert (bool_decide (is_Some (files w0 !! txt_artifact output_folder video_path))
          && bool_decide (is_Some (files w0 !! json_artifact output_folder video_path))
          && bool_decide (is_Some (files w0 !! srt_artifact output_folder video_path))
          = false) as ->.
  { apply not_true_is_false. intros H. apply Hnot.
    apply andb_true_iff in H as [H H3]. apply andb_true_iff in H as [H1 H2].
    apply bool_decide_eq_true in H1, H2, H3. done. }
  rewrite bind_run.
  destruct (Recognizer.process_video E video_path output_folder true w0)
    as [[[[? ? r|error ?]|]|msg] w']; [|done..].
  rewrite bind_run, generate_srt_file_run.
  by destruct (open_raises E (srt_artifact output_folder video_path)).
Qed.

(** When the recognizer cannot be built, nothing else happens. *)
Lemma process_single_video_no_model video_path output_folder w msg :
  load_model_raises E = Some msg →
  BatchProcess.process_single_video E video_path output_folder w =
    (Ok (false, "Error processing " +:+ OsPath.name video_path +:+ ": " +:+
                msg),
     World (files w) (trace w ++ [LoadModel])).
Proof.
  intros Hload.
  unfold BatchProcess.process_single_video, try_except, Recognizer.init.
  by rewrite bind_run, load_model_run, Hload.
Qed.

(** The skip branch. *)
Lemma process_single_video_skip video_path output_folder w :
  load_model_raises E = None →
  already_processed w output_folder video_path →
  BatchProcess.process_single_video E video_path output_folder w =
    (Ok (true, "Already processed: " +:+ OsPath.stem video_path),
     World (files w) (trace w ++ skip_events video_path)).
Proof.
  intros Hload (Ht & Hj & Hs).
  unfold BatchProcess.process_single_video, try_except, Recognizer.init.
  rewrite bind_run, load_model_run, Hload.
  repeat (rewrite bind_run; rewrite path_exists_present by done).
  cbn [andb]. rewrite bind_run. cbn [emit files trace mret M_ret].
  by rewrite <- app_assoc.
Qed.

End driver.



(** C8: when the recognizer is built, the video is decoded and transcribed
    and the waveform is removed, but the driver's subtitle file cannot be
    written, per-video processing still returns success, with the message
    that notes the subtitle failure, whatever happened to the text and JSON
    writes. *)
Theorem srt_failure_is_soft
    (E : env) (video_path output_folder : string) (w : world)
    (r : transcription) (msg : string) :
  load_model_raises E = None →
  ¬ already_processed w output_folder video_path →
  present w video_path →
  decode_raises E video_path (audio_path output_folder video_path) = None →
  transcribe_result E (audio_path output_folder video_path) = inr r →
  remove_raises E (audio_path output_folder video_path) = None →
  open_raises E (srt_artifact output_folder video_path) = Some msg →
  ∃ w',
    BatchProcess.process_single_video E video_path output_folder w =
      (Ok (true, "Successfully processed: " +:+ OsPath.stem video_path +:+
                 " (TXT, JSON created, SRT failed)"), w') ∧
    Print ("Failed to generate SRT file: " +:+ msg) ∈ trace w'.
Proof.
  intros Hload Hnot Hv Hd Ht Hrm Hsrt.
  rewrite process_single_video_run by done.
  rewrite (process_video_transcribed E video_path output_folder r) by done.
  cbv zeta. rewrite Hrm, Hsrt. eexists. split; [done|]. in_trace.
Qed.

(** At [a.mp4], in an output folder where no subtitle file can be
    written. *)
Lemma srt_failure_is_soft_witness :
  ∃ w',
    BatchProcess.process_single_video (readonly_env ".srt" ["a.mp4"])
      "input_videos/a.mp4" "output_transcriptions"
      (stocked ["input_videos/a.mp4"]) =
      (Ok (true, "Successfully processed: a (TXT, JSON created, SRT failed)"),
       w') ∧
    Print "Failed to generate SRT file: [Errno 13] Permission denied"
      ∈ trace w'.
Proof.
  apply (srt_failure_is_soft (readonly_env ".srt" ["a.mp4"])
           "input_videos/a.mp4" "output_transcriptions"
           (stocked ["input_videos/a.mp4"]) sample_record
           "[Errno 13] Permission denied").
  - reflexivity.
  - intros (H & _). vm_compute in H. by destruct H.
  - vm_compute. by eexists.
  - reflexivity.
  - reflexivity.
  - reflexivity.
  - vm_compute. reflexivity.
Defined.

(** C9: a fault of the text or of the JSON write is caught inside
    [save_transcription], which prints it; [process_video] still returns a
    success result.  No path whose [open] raises is written, and when it is
    the JSON [open] that raises nothing at all is written, so a success
    result does not tell that the text and JSON artifacts exist. *)
Theorem write_failure_still_success
    (E : env) (video_path output_dir : string) (w : world)
    (r : transcription) :
  present w video_path →
  decode_raises E video_path (audio_path output_dir video_path) = None →
  transcribe_result E (audio_path output_dir video_path) = inr r →
  remove_raises E (audio_path output_dir video_path) = None →
  ∃ w',
    Recognizer.process_video E video_path output_dir true w =
      (Ok (Some (Success video_path (output_path output_dir video_path) r)),
       w') ∧
    (∀ p, open_raises E p ≠ None →
          files w' !! p =
            delete (audio_path output_dir video_path) (files w) !! p) ∧
    (∀ msg, open_raises E (json_path output_dir video_path) = Some msg →
            files w' = delete (audio_path output_dir video_path) (files w) ∧
            Print ("Failed to save transcription results: " +:+ msg)
              ∈ trace w') ∧
    (∀ msg, open_raises E (json_path output_dir video_path) = None →
            open_raises E (output_path output_dir video_path) = Some msg →
            Print ("Failed to save transcription results: " +:+ msg)
              ∈ trace w').
Proof.
  intros Hv Hd Ht Hrm.
  rewrite (process_video_transcribed E video_path output_dir r) by done.
  cbv zeta. rewrite Hrm. eexists. split; [done|]. cbn [files trace].
  split; [|split].
  - intros p Hp.
    destruct (decide (p = audio_path output_dir video_path)) as [->|Hne].
    + by rewrite !lookup_delete_eq.
    + rewrite !lookup_delete_ne by done.
      rewrite after_save_frame by done.
      unfold after_transcribe. cbn [files]. by rewrite lookup_insert_ne.
  - intros msg Hj. unfold after_save. rewrite Hj. split; [|in_trace].
    unfold logged, after_transcribe. cbn [files].
    by rewrite delete_insert_eq.
  - intros msg Hj Ht'. unfold after_save. rewrite Hj, Ht'. in_trace.
Qed.

(** At [a.mp4], in an output folder where no JSON file can be written:
    success, and neither the JSON nor the text artifact exists. *)
Lemma write_failure_still_success_witness :
  ∃ w',
    Recognizer.process_video (readonly_env ".json" ["a.mp4"])
      "input_videos/a.mp4" "output_transcriptions" true
      (stocked ["input_videos/a.mp4"]) =
      (Ok (Some (Success "input_videos/a.mp4"
                         "output_transcriptions/a_transcription.txt"
                         sample_record)), w') ∧
    files w' !! "output_transcriptions/a_transcription.json" = None ∧
    files w' !! "output_transcriptions/a_transcription.txt" = None.
Proof.
  destruct (write_failure_still_success (readonly_env ".json" ["a.mp4"])
              "input_videos/a.mp4" "output_transcriptions"
              (stocked ["input_videos/a.mp4"]) sample_record)
    as (w' & Hrun & _ & Hjson & _).
  - vm_compute. by eexists.
  - reflexivity.
  - reflexivity.
  - reflexivity.
  - exists w'. split; [exact Hrun|].
    destruct (Hjson "[Errno 13] Permission denied") as [-> _].
    + vm_compute. reflexivity.
    + split; vm_compute; reflexivity.
Defined.

(** C4, as amended: when removing the waveform file raises after the
    transcription was saved, [process_video] prints the error and returns a
    failure result, the driver reports the video as failed with the message
    of the error, and the waveform file stays. *)
Theorem waveform_delete_failure_fails_video
    (E : env) (video_path output_folder : string) (w : world)
    (r : transcription) (msg : string) :
  load_model_raises E = None →
  ¬ already_processed w output_folder video_path →
  present w video_path →
  decode_raises E video_path (audio_path output_folder video_path) = None →
  transcribe_result E (audio_path output_folder video_path) = inr r →
  remove_raises E (audio_path output_folder video_path) = Some msg →
  ∃ w1 w',
    Recognizer.process_video E video_path output_folder true w =
      (Ok (Some (Failure msg video_path)), w1) ∧
    Print ("Error occurred while processing video: " +:+ msg) ∈ trace w1 ∧
    BatchProcess.process_single_video E video_path output_folder w =
      (Ok (false, "Failed to process: " +:+ OsPath.stem video_path +:+
                  " - " +:+ msg), w') ∧
    Print ("Error occurred while processing video: " +:+ msg) ∈ trace w' ∧
    present w' (audio_path output_folder video_path).
Proof.
  intros Hload Hnot Hv Hd Ht Hrm.
  rewrite process_single_video_run by done.
  rewrite !(process_video_transcribed E video_path output_folder r) by done.
  cbv zeta. rewrite Hrm. eexists _, _.
  split; [done|]. split; [|split; [done|split]].
  - in_trace.
  - in_trace.
  - unfold logged, present. cbn [files]. apply after_save_present.
    unfold present, after_transcribe. cbn [files]. by rewrite lookup_insert_eq.
Qed.

(** At [a.mp4], where the waveform cannot be removed. *)
Lemma waveform_delete_failure_fails_video_witness :
  ∃ w',
    BatchProcess.process_single_video (locked_env ["a.mp4"])
      "input_videos/a.mp4" "output_transcriptions"
      (stocked ["input_videos/a.mp4"]) =
      (Ok (false, "Failed to process: a - [Errno 13] Permission denied"),
       w') ∧
    present w' "output_transcriptions/a_audio.wav".
Proof.
  destruct (waveform_delete_failure_fails_video (locked_env ["a.mp4"])
              "input_videos/a.mp4" "output_transcriptions"
              (stocked ["input_videos/a.mp4"]) sample_record
              "[Errno 13] Permission denied")
    as (w1 & w' & _ & _ & Hrun & _ & Hwav).
  - reflexivity.
  - intros (H & _). vm_compute in H. by destruct H.
  - vm_compute. by eexists.
  - reflexivity.
  - reflexivity.
  - reflexivity.
  - exists w'. split; [exact Hrun|exact Hwav].
Defined.

(** C4, as stated, fails: the decoder and the model succeed and the three
    artifacts are written, the removal of the waveform raises, and the
    video is reported as failed. *)
Lemma waveform_delete_failure_not_success :
  let run :=
    BatchProcess.process_single_video (locked_env ["a.mp4"])
      "input_videos/a.mp4" "output_transcriptions"
      (stocked ["input_videos/a.mp4"]) in
  run.1 = Ok (false, "Failed to process: a - [Errno 13] Permission denied") ∧
  files run.2 !! "output_transcriptions/a_transcription.txt"
    = Some (TextReport sample_record) ∧
  files run.2 !! "output_transcriptions/a_transcription.json"
    = Some (JsonDump sample_record) ∧
  files run.2 !! "output_transcriptions/a.srt"
    = Some (srt_file_of sample_record).
Proof. vm_compute. repeat split. Qed.

(** ** The batch *)

Section batch.
Variable E : env.

(** The loop over videos that are all already processed. *)
Lemma process_each_skips output_folder video_files results w :
  load_model_raises E = None →
  (∀ v, v ∈ video_files → already_processed w output_folder v) →
  BatchProcess.process_each E video_files output_folder results w =
    (Ok (results ++ (skip_result <$> video_files)),
     World (files w) (trace w ++ (video_files ≫= skip_events))).
Proof.
  intros Hload. revert results w.
  induction video_files as [|v vs IH]; intros results w Hall.
  - cbn. rewrite !app_nil_r. by destruct w.
  - cbn [BatchProcess.process_each]. rewrite bind_run.
    rewrite process_single_video_skip by (done || apply Hall; left).
    rewrite IH.
    + cbn [files trace fmap list_fmap mbind list_bind].
      by rewrite <- !app_assoc.
    + intros v' Hv'. apply (Hall v'). by right.
Qed.

Lemma filter_successes_skipped video_files :
  List.filter (λ r : string * bool * string, r.1.2)
              (skip_result <$> video_files) = skip_result <$> video_files.
Proof. induction video_files as [|v vs IH]; [done|]. cbn. by rewrite IH. Qed.


End batch.




Section stems.

Lemma replace_space_changes (s : string) :
  has_char " " s = true → Py.replace s " " "_" ≠ s.
Proof.
  unfold Py.replace. induction s as [|c s IH]; [done|].
  cbn [has_char Py.replace_go String.prefix String.length Nat.sub].
  destruct (ascii_dec " " c) as [<-|Hc].
  - intros _. assert (String.prefix "" s = true) as -> by (by destruct s).
    discriminate.
  - rewrite bool_decide_eq_false_2 by done. cbn [orb]. intros Hs.
    injection 1 as H. by apply IH.
Qed.

End stems.

(** C2 fails on every video whose stem holds a space: the stem under which
    [process_video] writes differs from the stem of the skip test.  At
    [my video.mp4], with everything succeeding: the text and JSON artifacts
    and one subtitle file are written under the stem [my_video], a second
    subtitle file under the stem [my video] that the driver uses, so the run
    leaves four files under two stems; the text and JSON paths that the skip
    test looks for do not exist, and a second call runs the whole pipeline
    again. *)
Theorem stems_differ_on_space :
  (∀ video_path,
     has_char " " (OsPath.stem video_path) = true →
     Py.replace (OsPath.stem video_path) " " "_" ≠ OsPath.stem video_path) ∧
  let E := calm_env ["my video.mp4"] in
  let video := "input_videos/my video.mp4" in
  let out := "output_transcriptions" in
  let run := BatchProcess.process_single_video E video out (stocked [video]) in
  run.1 = Ok (true, "Successfully processed: my video (TXT, JSON, SRT created)") ∧
  size (files run.2) = 5%nat ∧
  files run.2 !! video = Some Media ∧
  files run.2 !! "output_transcriptions/my_video_transcription.txt"
    = Some (TextReport sample_record) ∧
  files run.2 !! "output_transcriptions/my_video_transcription.json"
    = Some (JsonDump sample_record) ∧
  files run.2 !! "output_transcriptions/my_video.srt"
    = Some (srt_file_of sample_record) ∧
  files run.2 !! "output_transcriptions/my video.srt"
    = Some (srt_file_of sample_record) ∧
  txt_artifact out video = "output_transcriptions/my video_transcription.txt" ∧
  files run.2 !! txt_artifact out video = None ∧
  files run.2 !! json_artifact out video = None ∧
  (BatchProcess.process_single_video E video out run.2).1 =
    Ok (true, "Successfully processed: my video (TXT, JSON, SRT created)").
Proof.
  split; [intros video_path; apply replace_space_changes|].
  cbv zeta. repeat split; vm_compute; reflexivity.
Qed.

(** * More of the pipeline

    ** How a video can fail *)

Section failures.
Variable E : env.

Lemma process_video_missing video_path output_dir clean w :
  ¬ present w video_path →
  Recognizer.process_video E video_path output_dir clean w =
    (Ok None, logged w ("Error: Video file not found - " +:+ video_path)).
Proof.
  intros Hv. unfold Recognizer.process_video.
  by rewrite bind_run, path_exists_absent.
Qed.

Lemma process_video_no_audio video_path output_dir clean w msg :
  present w video_path →
  decode_raises E video_path (audio_path output_dir video_path) = Some msg →
  Recognizer.process_video E video_path output_dir clean w =
    (Ok None,
     logged (World (files w)
                   (trace w ++
                    [DecodeAudio video_path (audio_path output_dir video_path)]))
            ("Audio extraction failed: " +:+ msg)).
Proof.
  intros Hv Hd. unfold Recognizer.process_video.
  rewrite bind_run, path_exists_present by done. cbn [negb].
  fold (audio_path output_dir video_path) (output_path output_dir video_path).
  unfold try_except at 1. rewrite bind_run.
  unfold Recognizer.extract_audio_from_video, try_except at 1.
  rewrite bind_run. unfold write_audiofile. rewrite bind_run. cbn [emit].
  by rewrite Hd.
Qed.

Lemma process_video_no_transcript video_path output_dir clean w msg :
  present w video_path →
  decode_raises E video_path (audio_path output_dir video_path) = None →
  transcribe_result E (audio_path output_dir video_path) = inl msg →
  Recognizer.process_video E video_path output_dir clean w =
    (Ok None,
     logged (after_transcribe output_dir video_path w)
            ("Transcription failed: " +:+ msg)).
Proof.
  intros Hv Hd Ht. unfold Recognizer.process_video.
  rewrite bind_run, path_exists_present by done. cbn [negb].
  fold (audio_path output_dir video_path) (output_path output_dir video_path).
  unfold try_except at 1. rewrite bind_run.
  unfold Recognizer.extract_audio_from_video, try_except at 1.
  rewrite bind_run. unfold write_audiofile. rewrite bind_run. cbn [emit].
  rewrite Hd. cbn [mret M_ret files trace].
  rewrite audio_path_truthy. cbn [negb].
  rewrite bind_run, transcribe_audio_run, Ht
    by (unfold present; cbn [files]; by rewrite lookup_insert_eq).
  unfold logged, after_transcribe. cbn [files trace].
  by rewrite <- !app_assoc.
Qed.

Lemma process_video_kept_audio video_path output_dir r w :
  present w video_path →
  decode_raises E video_path (audio_path output_dir video_path) = None →
  transcribe_result E (audio_path output_dir video_path) = inr r →
  Recognizer.process_video E video_path output_dir false w =
    (Ok (Some (Success video_path (output_path output_dir video_path) r)),
     after_save E r output_dir video_path
       (after_transcribe output_dir video_path w)).
Proof.
  intros Hv Hd Ht. unfold Recognizer.process_video.
  rewrite bind_run, path_exists_present by done. cbn [negb].
  fold (audio_path output_dir video_path) (output_path output_dir video_path).
  unfold try_except at 1. rewrite bind_run.
  unfold Recognizer.extract_audio_from_video, try_except at 1.
  rewrite bind_run. unfold write_audiofile. rewrite bind_run. cbn [emit].
  rewrite Hd. cbn [mret M_ret files trace].
  rewrite audio_path_truthy. cbn [negb].
  rewrite bind_run, transcribe_audio_run, Ht
    by (unfold present; cbn [files]; by rewrite lookup_insert_eq).
  cbn [files trace]. rewrite <- app_assoc. cbn [app].
  fold (after_transcribe output_dir video_path w).
  by rewrite bind_run, save_transcription_run.
Qed.

Lemma process_video_cases video_path output_dir clean w :
  ∃ res w',
    Recognizer.process_video E video_path output_dir clean w = (Ok res, w') ∧
    pv_case E video_path output_dir clean w res w'.
Proof.
  destruct (decide (present w video_path)) as [Hv|Hv].
  2:{ rewrite process_video_missing by done. eexists _, _.
      split; [done|by constructor]. }
  destruct (decode_raises E video_path (audio_path output_dir video_path))
    as [msg|] eqn:Hd.
  { rewrite (process_video_no_audio _ _ _ _ msg) by done. eexists _, _.
    split; [done|by constructor]. }
  destruct (transcribe_result E (audio_path output_dir video_path))
    as [msg|r] eqn:Ht.
  { rewrite (process_video_no_transcript _ _ _ _ msg) by done. eexists _, _.
    split; [done|by constructor]. }
  destruct clean.
  - rewrite (process_video_transcribed E _ _ r) by done. cbv zeta.
    destruct (remove_raises E _) as [msg|] eqn:Hrm; eexists _, _;
      (split; [done|]).
    + by apply pv_remove_failed.
    + by apply pv_cleaned.
  - rewrite (process_video_kept_audio _ _ r) by done. eexists _, _.
    split; [done|by apply pv_kept].
Qed.


Lemma after_save_untouched r output_dir video_path w p :
  p ∉ [json_path output_dir video_path; srt_path output_dir video_path;
       output_path output_dir video_path] →
  files (after_save E r output_dir video_path w) !! p = files w !! p.
Proof.
  intros Hp. apply not_elem_of_cons in Hp as [? Hp].
  apply not_elem_of_cons in Hp as [? Hp]. apply not_elem_of_cons in Hp as [? _].
  unfold after_save, wrote, logged.
  repeat case_match; cbn [files]; by rewrite ?lookup_insert_ne.
Qed.

Lemma pv_case_frame video_path output_dir clean w res w' p :
  pv_case E video_path output_dir clean w res w' →
  p ∉ [audio_path output_dir video_path; json_path output_dir video_path;
       srt_path output_dir video_path; output_path output_dir video_path] →
  files w' !! p = files w !! p.
Proof.
  intros Hcase Hp.
  apply not_elem_of_cons in Hp as [? Hp].
  destruct Hcase; cbn [logged files after_transcribe]; try done;
    rewrite ?lookup_delete_ne by done;
    rewrite ?after_save_untouched by done;
    cbn [files after_transcribe]; by rewrite ?lookup_insert_ne.
Qed.

End failures.

(** ** The exception boundary and the early failures *)

Section boundary.
Variable E : env.

Lemma process_single_video_returns video_path output_folder w :
  ∃ flag message w',
    BatchProcess.process_single_video E video_path output_folder w =
      (Ok (flag, message), w').
Proof.
  unfold BatchProcess.process_single_video, try_except.
  match goal with |- context [match ?b w with _ => _ end] =>
    destruct (b w) as [[[flag message]|msg] w'] end; by eexists _, _, _.
Qed.

End boundary.


(** X2: when the audio track cannot be decoded, [process_video] returns
    [None] and the driver turns that into a failure pair whose message is
    the [TypeError] of subscripting [None], not the decoder's error; no file
    is written or removed and the model is not asked to transcribe. *)
Theorem extraction_failure_writes_nothing
    (E : env) (video_path output_folder : string) (w : world) (msg : string) :
  load_model_raises E = None →
  ¬ already_processed w output_folder video_path →
  present w video_path →
  decode_raises E video_path (audio_path output_folder video_path) = Some msg →
  BatchProcess.process_single_video E video_path output_folder w =
    (Ok (false, none_error video_path),
     World (files w)
           (trace w ++
            [LoadModel;
             DecodeAudio video_path (audio_path output_folder video_path);
             Print ("Audio extraction failed: " +:+ msg)])).
Proof.
  intros Hload Hnot Hv Hd.
  rewrite process_single_video_run by done.
  rewrite (process_video_no_audio E _ _ _ _ msg) by done.
  unfold logged. cbn [files trace]. by rewrite <- !app_assoc.
Qed.

(** At [a.mp4] without an audio track. *)
Lemma extraction_failure_writes_nothing_witness :
  ∃ w',
    BatchProcess.process_single_video (silent_env ["a.mp4"])
      "input_videos/a.mp4" "output_transcriptions"
      (stocked ["input_videos/a.mp4"]) =
      (Ok (false,
           "Error processing a.mp4: 'NoneType' object is not subscriptable"),
       w') ∧
    files w' = files (stocked ["input_videos/a.mp4"]).
Proof.
  eexists. split.
  - apply (extraction_failure_writes_nothing (silent_env ["a.mp4"])
             "input_videos/a.mp4" "output_transcriptions"
             (stocked ["input_videos/a.mp4"])
             "'NoneType' object has no attribute 'write_audiofile'").
    + reflexivity.
    + intros (H & _). vm_compute in H. by destruct H.
    + vm_compute. by eexists.
    + reflexivity.
  - reflexivity.
Defined.

(** X3: when the model fails to transcribe, the driver returns the same
    failure pair; the only change to the files is the waveform, which was
    written and is not removed. *)
Theorem transcription_failure_leaves_waveform
    (E : env) (video_path output_folder : string) (w : world) (msg : string) :
  load_model_raises E = None →
  ¬ already_processed w output_folder video_path →
  present w video_path →
  decode_raises E video_path (audio_path output_folder video_path) = None →
  transcribe_result E (audio_path output_folder video_path) = inl msg →
  BatchProcess.process_single_video E video_path output_folder w =
    (Ok (false, none_error video_path),
     World (<[audio_path output_folder video_path := Waveform video_path]>
              (files w))
           (trace w ++
            [LoadModel;
             DecodeAudio video_path (audio_path output_folder video_path);
             Transcribe (audio_path output_folder video_path);
             Print ("Transcription failed: " +:+ msg)])).
Proof.
  intros Hload Hnot Hv Hd Ht.
  rewrite process_single_video_run by done.
  rewrite (process_video_no_transcript E _ _ _ _ msg) by done.
  unfold logged, after_transcribe. cbn [files trace]. by rewrite <- !app_assoc.
Qed.

(** At [a.mp4] with a model that raises. *)
Lemma transcription_failure_leaves_waveform_witness :
  ∃ w',
    BatchProcess.process_single_video (deaf_env ["a.mp4"])
      "input_videos/a.mp4" "output_transcriptions"
      (stocked ["input_videos/a.mp4"]) =
      (Ok (false,
           "Error processing a.mp4: 'NoneType' object is not subscriptable"),
       w') ∧
    files w' !! "output_transcriptions/a_audio.wav"
      = Some (Waveform "input_videos/a.mp4").
Proof.
  eexists. split.
  - apply (transcription_failure_leaves_waveform (deaf_env ["a.mp4"])
             "input_videos/a.mp4" "output_transcriptions"
             (stocked ["input_videos/a.mp4"]) "CUDA out of memory").
    + reflexivity.
    + intros (H & _). vm_compute in H. by destruct H.
    + vm_compute. by eexists.
    + reflexivity.
    + reflexivity.
  - vm_compute. reflexivity.
Defined.

(** X4: a missing input stops a step before any collaborator is called:
    [transcribe_audio] on a missing waveform and [process_video] on a
    missing video print a line and return [None], and the driver reports
    the video as failed, with no file changed. *)
Theorem missing_input_stops_early (E : env) (p : string) (w : world) :
  ¬ present w p →
  Recognizer.transcribe_audio E p w =
    (Ok None, logged w ("Audio file not found: " +:+ p)) ∧
  (∀ output_dir clean,
     Recognizer.process_video E p output_dir clean w =
       (Ok None, logged w ("Error: Video file not found - " +:+ p))) ∧
  (load_model_raises E = None →
   ∀ output_folder,
     ¬ already_processed w output_folder p →
     BatchProcess.process_single_video E p output_folder w =
       (Ok (false, none_error p),
        World (files w)
              (trace w ++
               [LoadModel; Print ("Error: Video file not found - " +:+ p)]))).
Proof.
  intros Hp. split; [|split].
  - unfold Recognizer.transcribe_audio.
    by rewrite bind_run, path_exists_absent.
  - intros. by apply process_video_missing.
  - intros Hload output_folder Hnot.
    rewrite process_single_video_run by done.
    rewrite process_video_missing by done.
    unfold logged. cbn [files trace]. by rewrite <- !app_assoc.
Qed.

(** At a video that is listed but not on disk. *)
Lemma missing_input_stops_early_witness :
  Recognizer.process_video (calm_env ["a.mp4"]) "input_videos/a.mp4"
    "output_transcriptions" true (stocked []) =
    (Ok None,
     logged (stocked []) "Error: Video file not found - input_videos/a.mp4").
Proof.
  apply (missing_input_stops_early (calm_env ["a.mp4"]) "input_videos/a.mp4"
           (stocked [])).
  intros H. vm_compute in H. by destruct H.
Defined.

(** ** What a successful video leaves *)

Section success.
Variable E : env.

(** What a success result of [process_video] tells. *)
Lemma process_video_success_inv video_path output_dir clean w w' v o r :
  Recognizer.process_video E video_path output_dir clean w =
    (Ok (Some (Success v o r)), w') →
  v = video_path ∧ o = output_path output_dir video_path ∧
  transcribe_result E (audio_path output_dir video_path) = inr r ∧
  if clean then files w' !! audio_path output_dir video_path = None
  else present w' (audio_path output_dir video_path).
Proof.
  intros Hrun.
  destruct (process_video_cases E video_path output_dir clean w)
    as (res & w1 & Hrun' & Hcase).
  rewrite Hrun in Hrun'. injection Hrun' as <- <-.
  inversion Hcase; subst; (split; [done|split; [done|split; [done|]]]).
  - apply after_save_present. unfold present, after_transcribe. cbn [files].
    by rewrite lookup_insert_eq.
  - cbn [files]. by rewrite lookup_delete_eq.
Qed.

End success.

(** X5: a success result of [process_video] carries the video path, the
    path of the text report and the model's transcription; with
    [clean_audio] the waveform file is gone afterwards, without it the
    waveform file is there. *)
Theorem waveform_removed_on_success
    (E : env) (video_path output_dir : string) (clean : bool) (w w' : world)
    (v o : string) (r : transcription) :
  Recognizer.process_video E video_path output_dir clean w =
    (Ok (Some (Success v o r)), w') →
  v = video_path ∧ o = output_path output_dir video_path ∧
  transcribe_result E (audio_path output_dir video_path) = inr r ∧
  if clean then files w' !! audio_path output_dir video_path = None
  else present w' (audio_path output_dir video_path).
Proof. apply process_video_success_inv. Qed.

(** At [a.mp4], kept and removed waveform. *)
Lemma waveform_removed_on_success_witness :
  let run clean :=
    Recognizer.process_video (calm_env ["a.mp4"]) "input_videos/a.mp4"
      "output_transcriptions" clean (stocked ["input_videos/a.mp4"]) in
  (run true).1 =
    Ok (Some (Success "input_videos/a.mp4"
                      "output_transcriptions/a_transcription.txt"
                      sample_record)) ∧
  files (run true).2 !! "output_transcriptions/a_audio.wav" = None ∧
  present (run false).2 "output_transcriptions/a_audio.wav".
Proof.
  intros run. split; [vm_compute; reflexivity|]. split.
  - exact (proj2 (proj2 (proj2
      (waveform_removed_on_success (calm_env ["a.mp4"]) "input_videos/a.mp4"
         "output_transcriptions" true (stocked ["input_videos/a.mp4"])
         (run true).2 "input_videos/a.mp4"
         "output_transcriptions/a_transcription.txt" sample_record
         ltac:(vm_compute; reflexivity))))).
  - exact (proj2 (proj2 (proj2
      (waveform_removed_on_success (calm_env ["a.mp4"]) "input_videos/a.mp4"
         "output_transcriptions" false (stocked ["input_videos/a.mp4"])
         (run false).2 "input_videos/a.mp4"
         "output_transcriptions/a_transcription.txt" sample_record
         ltac:(vm_compute; reflexivity))))).
Defined.

(** X6: whenever the driver reports that the subtitle file was created, the
    file at the driver's subtitle path holds the subtitle text of the
    transcription the model returned for this video. *)
Theorem srt_created_message_is_reliable
    (E : env) (video_path output_folder : string) (w w' : world) :
  BatchProcess.process_single_video E video_path output_folder w =
    (Ok (true, "Successfully processed: " +:+ OsPath.stem video_path +:+
               " (TXT, JSON, SRT created)"), w') →
  ∃ r, transcribe_result E (audio_path output_folder video_path) = inr r ∧
       files w' !! srt_artifact output_folder video_path
         = Some (srt_file_of r).
Proof.
  intros Hrun.
  destruct (load_model_raises E) as [msg|] eqn:Hload.
  { by rewrite (process_single_video_no_model E _ _ _ msg) in Hrun. }
  destruct (decide (already_processed w output_folder video_path)) as [Hd|Hd].
  { rewrite process_single_video_skip in Hrun by done. discriminate. }
  rewrite process_single_video_run in Hrun by done.
  destruct (process_video_cases E video_path output_folder true
              (World (files w) (trace w ++ [LoadModel])))
    as (res & w1 & Hpv & Hcase).
  rewrite Hpv in Hrun.
  destruct res as [[v o r|error ?]|]; [|done..].
  apply process_video_success_inv in Hpv as (_ & _ & Ht & _).
  exists r. split; [done|].
  destruct (open_raises E (srt_artifact output_folder video_path)).
  - injection Hrun as Hmsg _. apply (inj _) in Hmsg. apply (inj _) in Hmsg.
    discriminate.
  - injection Hrun as <-. unfold wrote. cbn [files]. by rewrite lookup_insert_eq.
Qed.

(** At [my video.mp4], whose text and JSON files go under another stem. *)
Lemma srt_created_message_is_reliable_witness :
  let run :=
    BatchProcess.process_single_video (calm_env ["my video.mp4"])
      "input_videos/my video.mp4" "output_transcriptions"
      (stocked ["input_videos/my video.mp4"]) in
  ∃ r, files run.2 !! "output_transcriptions/my video.srt"
         = Some (srt_file_of r).
Proof.
  intros run.
  destruct (srt_created_message_is_reliable (calm_env ["my video.mp4"])
              "input_videos/my video.mp4" "output_transcriptions"
              (stocked ["input_videos/my video.mp4"]) run.2
              ltac:(vm_compute; reflexivity)) as (r & _ & Hr).
  exists r. exact Hr.
Defined.

(** ** What a run may touch *)

Section frames.
Variable E : env.

Lemma process_single_video_frame video_path output_folder w p :
  p ∉ touched output_folder video_path →
  files (BatchProcess.process_single_video E video_path output_folder w).2 !! p
    = files w !! p.
Proof.
  intros Hp.
  destruct (load_model_raises E) as [msg|] eqn:Hload.
  { by rewrite (process_single_video_no_model E _ _ _ msg). }
  destruct (decide (already_processed w output_folder video_path)) as [Hd|Hd].
  { by rewrite process_single_video_skip. }
  rewrite process_single_video_run by done.
  destruct (process_video_cases E video_path output_folder true
              (World (files w) (trace w ++ [LoadModel])))
    as (res & w' & -> & Hcase).
  assert (srt_artifact output_folder video_path ≠ p) as Hsrt.
  { intros <-. apply Hp. unfold touched. do 4 right. left. }
  assert (files w' !! p = files w !! p) as Hw'.
  { apply (pv_case_frame E _ _ _ _ _ _ p) in Hcase; [done|].
    intros Hin. apply Hp. unfold touched.
    repeat (apply elem_of_cons in Hin as [->|Hin]);
      [left|right; left|do 2 right; left|do 3 right; left|].
    by apply elem_of_nil in Hin. }
  destruct res as [[? ? r|error ?]|]; [|done..].
  destruct (open_raises E (srt_artifact output_folder video_path));
    cbn [snd logged wrote files]; by rewrite ?lookup_insert_ne.
Qed.

Lemma process_each_frame video_files output_folder results w p :
  (∀ v, v ∈ video_files → p ∉ touched output_folder v) →
  files (BatchProcess.process_each E video_files output_folder results w).2 !! p
    = files w !! p.
Proof.
  revert results w. induction video_files as [|v vs IH]; intros results w Hp.
  { done. }
  cbn [BatchProcess.process_each]. rewrite bind_run.
  destruct (process_single_video_returns E v output_folder w)
    as (flag & message & w' & Hrun).
  pose proof (process_single_video_frame v output_folder w p) as Hframe.
  rewrite Hrun in *. cbn [snd] in Hframe.
  rewrite IH by (intros v' Hv'; apply Hp; by right).
  apply Hframe, Hp. left.
Qed.

Lemma main_frame w p :
  (∀ v, v ∈ BatchProcess.get_video_files E "input_videos" →
        p ∉ touched "output_transcriptions" v) →
  files (BatchProcess.main E w).2 !! p = files w !! p.
Proof.
  intros Hp. unfold BatchProcess.main, BatchProcess.setup_environment.
  rewrite bind_run. cbn [mret M_ret].
  destruct (ffmpeg_probe E); cbn [negb]; [|done].
  destruct (BatchProcess.get_video_files E "input_videos") as [|v vs] eqn:Hvs;
    [done|].
  rewrite bind_run. unfold try_except. rewrite bind_run, load_model_run.
  destruct (load_model_raises E) as [msg|]; [done|].
  cbn [mret M_ret negb]. rewrite bind_run.
  pose proof (process_each_frame (v :: vs) "output_transcriptions" []
                (World (files w) (trace w ++ [LoadModel])) p Hp) as Hframe.
  destruct (BatchProcess.process_each E (v :: vs) _ _ _) as [[results|msg] w'];
    exact Hframe.
Qed.

End frames.

(** X7: a call of [process_single_video] leaves every file as it was except
    at five paths: the waveform, the three paths [process_video] and
    [save_transcription] compute, and the driver's own subtitle path. *)
Theorem process_single_video_touches_own_paths
    (E : env) (video_path output_folder : string) (w : world) (p : string) :
  p ∉ touched output_folder video_path →
  files (BatchProcess.process_single_video E video_path output_folder w).2 !! p
    = files w !! p.
Proof. apply process_single_video_frame. Qed.

(** At [a.mp4]: the video itself is not one of the five paths. *)
Lemma process_single_video_touches_own_paths_witness :
  files (BatchProcess.process_single_video (calm_env ["a.mp4"])
           "input_videos/a.mp4" "output_transcriptions"
           (stocked ["input_videos/a.mp4"])).2 !! "input_videos/a.mp4"
    = Some Media.
Proof.
  rewrite (process_single_video_touches_own_paths (calm_env ["a.mp4"])
             "input_videos/a.mp4" "output_transcriptions"
             (stocked ["input_videos/a.mp4"]) "input_videos/a.mp4").
  - vm_compute. reflexivity.
  - intros H. vm_compute in H.
    repeat (apply elem_of_cons in H as [H|H]; [discriminate|]).
    by apply elem_of_nil in H.
Defined.

(** ** Paths and separators *)

Section slashes.

Lemma has_char_app c a b :
  has_char c (a +:+ b) = has_char c a || has_char c b.
Proof.
  induction a as [|d a IH]; [done|].
  change (String d a +:+ b) with (String d (a +:+ b)).
  cbn [has_char]. by rewrite IH, orb_assoc.
Qed.

Lemma has_char_rev_app c a b :
  has_char c (String.rev_app a b) = has_char c a || has_char c b.
Proof.
  revert b. induction a as [|d a IH]; intros b; [done|].
  cbn [String.rev_app has_char]. rewrite IH. cbn [has_char].
  destruct (bool_decide (d = c)), (has_char c a), (has_char c b); done.
Qed.

Lemma has_char_rev c a : has_char c (String.rev a) = has_char c a.
Proof. unfold String.rev. rewrite has_char_rev_app. cbn. by rewrite orb_false_r. Qed.

(** No component of a split holds the separator. *)
Lemma split_go_no_sep sep cur s x :
  has_char sep cur = false →
  x ∈ Py.split_go sep cur s → has_char sep x = false.
Proof.
  revert cur. induction s as [|c s IH]; intros cur Hcur Hx.
  - cbn in Hx. apply list_elem_of_singleton in Hx as ->. by rewrite has_char_rev.
  - cbn [Py.split_go] in Hx. destruct (decide (c = sep)) as [->|Hne].
    + apply elem_of_cons in Hx as [->|Hx]; [by rewrite has_char_rev|].
      by apply (IH "").
    + apply (IH (String c cur)); [|done]. cbn [has_char].
      by rewrite bool_decide_eq_false_2.
Qed.

Lemma has_char_substring c n m s :
  has_char c s = false → has_char c (String.substring n m s) = false.
Proof.
  revert n m. induction s as [|d s IH]; intros n m Hs.
  - by destruct n, m.
  - cbn [has_char] in Hs. apply orb_false_iff in Hs as [Hd Hs].
    destruct n as [|n]; [destruct m as [|m]|]; cbn [String.substring has_char];
      rewrite ?Hd; cbn [orb]; auto.
Qed.

Lemma name_no_slash p : has_char "/" (OsPath.name p) = false.
Proof.
  unfold OsPath.name.
  match goal with |- context [List.last ?l _] => 
    assert (Forall (λ x, has_char "/" x = false) l) as Hall end.
  { apply Forall_forall. intros x Hx%list_elem_of_In%filter_In.
    destruct Hx as [Hx%list_elem_of_In _].
    by apply (split_go_no_sep "/" "" p). }
  revert Hall. generalize (List.filter
    (λ c : string, Py.truthy c && negb (c =? ".")%string) (Py.split p "/")).
  intros l Hall. induction Hall as [|x l Hx Hl IH]; [done|].
  destruct l; [done|]. exact IH.
Qed.

Lemma stem_no_slash p : has_char "/" (OsPath.stem p) = false.
Proof.
  unfold OsPath.stem. pose proof (name_no_slash p).
  repeat case_match; try done. by apply has_char_substring.
Qed.

Lemma startswith_cons_false c s p d :
  c ≠ d → Py.startswith (String c s) (String d p) = false.
Proof.
  intros Hne. unfold Py.startswith. cbn [String.prefix].
  by destruct (ascii_dec d c).
Qed.

Lemma startswith_slash s :
  Py.startswith s "/" = true → has_char "/" s = true.
Proof.
  destruct s as [|c s]; [done|]. unfold Py.startswith. cbn [String.prefix].
  destruct (ascii_dec "/" c) as [<-|]; [|done]. intros _. cbn [has_char].
  by rewrite bool_decide_eq_true_2.
Qed.

Lemma has_char_replace_space s x :
  has_char "/" (Py.replace s " " "_" +:+ x) = has_char "/" s || has_char "/" x.
Proof.
  unfold Py.replace. induction s as [|c s IH]; [done|].
  cbn [Py.replace_go String.prefix String.length Nat.sub].
  destruct (ascii_dec " " c) as [<-|Hc].
  - assert (String.prefix "" s = true) as -> by (by destruct s).
    change (("_" +:+ Py.replace_go " " "_" 0 s) +:+ x)
      with (String "_" (Py.replace_go " " "_" 0 s +:+ x)).
    cbn [has_char]. rewrite IH. done.
  - change (String c (Py.replace_go " " "_" 0 s) +:+ x)
      with (String c (Py.replace_go " " "_" 0 s +:+ x)).
    cbn [has_char]. by rewrite IH, orb_assoc.
Qed.


Lemma startswith_app pre x : Py.startswith (pre +:+ x) pre = true.
Proof.
  unfold Py.startswith. induction pre as [|c pre IH]; [by destruct x|].
  change (String c pre +:+ x) with (String c (pre +:+ x)).
  cbn [String.prefix]. by destruct (ascii_dec c c).
Qed.

Lemma join_output b :
  has_char "/" b = false →
  OsPath.join "output_transcriptions" b = "output_transcriptions/" +:+ b.
Proof.
  intros Hb. unfold OsPath.join.
  destruct (Py.startswith b "/") eqn:Hs; [|done].
  apply startswith_slash in Hs. congruence.
Qed.

(** Every path a video's processing may touch lies in the output folder of
    [main]. *)
Lemma touched_in_output video_path p :
  p ∈ touched "output_transcriptions" video_path →
  Py.startswith p "output_transcriptions/" = true.
Proof.
  pose proof (stem_no_slash video_path) as Hstem.
  assert (audio_path "output_transcriptions" video_path =
          "output_transcriptions/" +:+
          (Py.replace (OsPath.stem video_path) " " "_" +:+ "_audio.wav")) as Ha.
  { unfold audio_path. apply join_output.
    by rewrite has_char_replace_space, Hstem. }
  assert (output_path "output_transcriptions" video_path =
          "output_transcriptions/" +:+
          (Py.replace (OsPath.stem video_path) " " "_" +:+
           "_transcription.txt")) as Ho.
  { unfold output_path. apply join_output.
    by rewrite has_char_replace_space, Hstem. }
  assert (srt_artifact "output_transcriptions" video_path =
          "output_transcriptions/" +:+ (OsPath.stem video_path +:+ ".srt"))
    as Hs.
  { unfold srt_artifact. apply join_output. by rewrite has_char_app, Hstem. }
  assert (json_path "output_transcriptions" video_path =
          "output_transcriptions/" +:+
          Py.replace_go ".txt" ".json" 0
            (Py.replace (OsPath.stem video_path) " " "_" +:+
             "_transcription.txt")) as Hj.
  { unfold json_path. by rewrite Ho. }
  assert (srt_path "output_transcriptions" video_path =
          "output_transcriptions/" +:+
          Py.replace_go "_transcription.txt" ".srt" 0
            (Py.replace (OsPath.stem video_path) " " "_" +:+
             "_transcription.txt")) as Hr.
  { unfold srt_path. by rewrite Ho. }
  unfold touched. rewrite Ha, Ho, Hs, Hj, Hr.
  intros Hp. repeat (apply elem_of_cons in Hp as [->|Hp]);
    [apply startswith_app..|by apply elem_of_nil in Hp].
Qed.

End slashes.

(** X8: the batch changes no file outside its output folder: whatever the
    input folder lists and whatever fails, a path that does not start with
    [output_transcriptions/] holds after [main] what it held before. *)
Theorem main_changes_nothing_outside_output
    (E : env) (w : world) (p : string) :
  Py.startswith p "output_transcriptions/" = false →
  files (BatchProcess.main E w).2 !! p = files w !! p.
Proof.
  intros Hp. apply main_frame. intros v _ Hin.
  apply touched_in_output in Hin. congruence.
Qed.

(** At a folder with two videos, one of them with a space in its name. *)
Lemma main_changes_nothing_outside_output_witness :
  let w := stocked ["input_videos/a.mp4"; "input_videos/my video.mp4"] in
  files (BatchProcess.main (calm_env ["a.mp4"; "my video.mp4"]) w).2
    !! "input_videos/my video.mp4" = Some Media.
Proof.
  intros w.
  rewrite (main_changes_nothing_outside_output
             (calm_env ["a.mp4"; "my video.mp4"]) w "input_videos/my video.mp4");
    vm_compute; reflexivity.
Defined.

(** ** The batch as a whole *)

Section traces.
Variable E : env.
Local Open Scope nat_scope.

Lemma count_loads_app evs1 evs2 :
  count_loads (evs1 ++ evs2) = count_loads evs1 + count_loads evs2.
Proof. unfold count_loads. by rewrite List.filter_app, length_app. Qed.

(** [save_transcription] only writes and prints. *)
Lemma after_save_trace r output_dir video_path w :
  ∃ evs, trace (after_save E r output_dir video_path w) = trace w ++ evs ∧
         count_loads evs = 0.
Proof.
  unfold after_save, wrote, logged.
  repeat case_match; cbn [trace]; rewrite <- ?app_assoc; by eexists.
Qed.

Lemma pv_case_trace video_path output_dir clean w res w' :
  pv_case E video_path output_dir clean w res w' →
  ∃ evs, trace w' = trace w ++ evs ∧ count_loads evs = 0.
Proof.
  intros Hcase.
  destruct (after_save_trace
              (match res with Some (Success _ _ r) => r | _ => Transcription "" [] end)
              output_dir video_path (after_transcribe output_dir video_path w))
    as (evs & Hevs & Hn).
  destruct Hcase; cbn [logged trace after_transcribe] in *;
    try (rewrite <- ?app_assoc; by eexists).
  - rewrite Hevs. cbn [trace after_transcribe]. rewrite <- !app_assoc.
    eexists. split; [done|]. by rewrite !count_loads_app, Hn.
  - rewrite Hevs. cbn [trace after_transcribe]. rewrite <- !app_assoc.
    eexists. split; [done|]. by rewrite !count_loads_app, Hn.
  - destruct (after_save_trace r output_dir video_path
                (after_transcribe output_dir video_path w)) as (evs' & -> & Hn').
    cbn [trace after_transcribe]. rewrite <- !app_assoc.
    eexists. split; [done|]. by rewrite !count_loads_app, Hn'.
Qed.

(** One call of [process_single_video] loads the model exactly once. *)
Lemma process_single_video_loads_once video_path output_folder w :
  ∃ evs,
    trace (BatchProcess.process_single_video E video_path output_folder w).2
      = trace w ++ evs ∧
    count_loads evs = 1.
Proof.
  destruct (load_model_raises E) as [msg|] eqn:Hload.
  { rewrite (process_single_video_no_model E _ _ _ msg) by done. by eexists. }
  destruct (decide (already_processed w output_folder video_path)) as [Hd|Hd].
  { rewrite process_single_video_skip by done. by eexists. }
  rewrite process_single_video_run by done.
  destruct (process_video_cases E video_path output_folder true
              (World (files w) (trace w ++ [LoadModel])))
    as (res & w' & -> & Hcase).
  apply pv_case_trace in Hcase as (evs & Hevs & Hn). cbn [trace] in Hevs.
  destruct res as [[? ? r|error ?]|]; cbn [snd].
  - destruct (open_raises E (srt_artifact output_folder video_path));
      cbn [snd logged wrote trace]; rewrite Hevs, <- !app_assoc;
      (eexists; split; [done|]); by rewrite !count_loads_app, Hn.
  - rewrite Hevs, <- !app_assoc. eexists. split; [done|].
    by rewrite !count_loads_app, Hn.
  - rewrite Hevs, <- !app_assoc. eexists. split; [done|].
    by rewrite !count_loads_app, Hn.
Qed.

(** The loop never stops early: it returns one entry per video, in order,
    and loads the model once per video. *)
Lemma process_each_results video_files output_folder results w :
  ∃ new w' evs,
    BatchProcess.process_each E video_files output_folder results w
      = (Ok (results ++ new), w') ∧
    new.*1.*1 = OsPath.name <$> video_files ∧
    trace w' = trace w ++ evs ∧
    count_loads evs = length video_files.
Proof.
  revert results w. induction video_files as [|v vs IH]; intros results w.
  { exists [], w, []. cbn. by rewrite !app_nil_r. }
  cbn [BatchProcess.process_each]. rewrite bind_run.
  destruct (process_single_video_returns E v output_folder w)
    as (flag & message & w1 & Hrun).
  destruct (process_single_video_loads_once v output_folder w)
    as (evs1 & Hevs1 & Hn1).
  rewrite Hrun in *. cbn [snd] in Hevs1.
  destruct (IH (results ++ [(OsPath.name v, flag, message)]) w1)
    as (new & w' & evs & -> & Hnames & Hevs & Hn).
  exists ((OsPath.name v, flag, message) :: new), w', (evs1 ++ evs).
  split; [by rewrite <- app_assoc|]. split; [cbn; by rewrite Hnames|].
  split; [by rewrite Hevs, Hevs1, <- app_assoc|].
  rewrite count_loads_app, Hn1, Hn. done.
Qed.

(** [main] once the probe succeeded, the model loaded and there are videos. *)
Lemma main_run w :
  ffmpeg_probe E = true →
  load_model_raises E = None →
  BatchProcess.get_video_files E "input_videos" ≠ [] →
  ∃ results successful failed w' evs,
    BatchProcess.main E w = (Ok (Summary results successful failed), w') ∧
    results.*1.*1 = OsPath.name <$> BatchProcess.get_video_files E "input_videos" ∧
    successful = length (List.filter (λ r : string * bool * string, r.1.2) results) ∧
    failed = length (List.filter (λ r : string * bool * string, negb r.1.2) results) ∧
    trace w' = trace w ++ evs ∧
    count_loads evs = S (length (BatchProcess.get_video_files E "input_videos")).
Proof.
  intros Hff Hload Hvs. unfold BatchProcess.main, BatchProcess.setup_environment.
  rewrite bind_run. cbn [mret M_ret]. rewrite Hff. cbn [negb].
  destruct (BatchProcess.get_video_files E "input_videos") as [|v vs] eqn:Hfiles;
    [done|].
  rewrite bind_run. unfold try_except. rewrite bind_run, load_model_run, Hload.
  cbn [mret M_ret negb]. rewrite bind_run.
  destruct (process_each_results (v :: vs) "output_transcriptions" []
              (World (files w) (trace w ++ [LoadModel])))
    as (new & w' & evs & -> & Hnames & Hevs & Hn).
  cbn [app trace] in *.
  eexists new, _, _, w', ([LoadModel] ++ evs).
  split; [done|]. split; [done|]. split; [done|]. split.
  - assert (length (List.filter (λ r : string * bool * string, r.1.2) new) +
            length (List.filter (λ r : string * bool * string, negb r.1.2) new)
            = length new) as Hsum; [|lia].
    clear. induction new as [|[[n b] m] new IH]; [done|].
    cbn [List.filter length fst snd]. destruct b; cbn [negb length]; lia.
  - split; [by rewrite Hevs, <- app_assoc|].
    by rewrite count_loads_app, Hn.
Qed.

End traces.



(** X10: the model is not loaded once for the whole batch: [main] loads it
    once itself and every call of [process_single_video] builds a
    recognizer that loads it again, so a run over n videos loads it n + 1
    times, skipped videos included. *)
Theorem model_loaded_once_per_video (E : env) (w : world) :
  ffmpeg_probe E = true →
  load_model_raises E = None →
  BatchProcess.get_video_files E "input_videos" ≠ [] →
  ∃ evs,
    trace (BatchProcess.main E w).2 = trace w ++ evs ∧
    count_loads evs
      = S (length (BatchProcess.get_video_files E "input_videos")).
Proof.
  intros Hff Hload Hvs.
  destruct (main_run E w Hff Hload Hvs)
    as (results & successful & failed & w' & evs & Hrun & _ & _ & _ & Hevs & Hn).
  exists evs. by rewrite Hrun.
Qed.

(** At a folder with two videos that are both already processed. *)
Lemma model_loaded_once_per_video_witness :
  let E := calm_env ["a.mp4"; "b.mp4"] in
  let w1 :=
    (BatchProcess.main E
       (stocked ["input_videos/a.mp4"; "input_videos/b.mp4"])).2 in
  ∃ evs, trace (BatchProcess.main E w1).2 = trace w1 ++ evs ∧
         count_loads evs = 3%nat.
Proof.
  intros E w1.
  exact (model_loaded_once_per_video E w1 eq_refl eq_refl
           ltac:(vm_compute; discriminate)).
Defined.



(** ** Discovery and the order of the listing *)

Section listing.

Lemma is_video_name_casefold E1 E2 n :
  casefold E1 = casefold E2 → is_video_name E1 n = is_video_name E2 n.
Proof.
  intros Hcf. unfold is_video_name, BatchProcess.fnmatch_star. by rewrite Hcf.
Qed.

Lemma get_video_files_by_members E1 E2 folder :
  casefold E1 = casefold E2 →
  (∀ n, n ∈ listdir E1 folder ↔ n ∈ listdir E2 folder) →
  BatchProcess.get_video_files E1 folder = BatchProcess.get_video_files E2 folder.
Proof.
  intros Hcf Hls.
  apply (StronglySorted_unique String.le); [apply get_video_files_sorted..|].
  apply NoDup_Permutation; [apply get_video_files_NoDup..|].
  intros p. rewrite !elem_of_get_video_files.
  split; intros (n & Hn & -> & Hv & Hm); exists n;
    (split; [by apply Hls|]); (split; [done|]); (split; [done|]).
  - by rewrite <- (is_video_name_casefold E1 E2).
  - by rewrite (is_video_name_casefold E1 E2).
Qed.

End listing.

(** X12: what file discovery returns depends only on which names the folder
    holds, not on the order in which the system lists them nor on repeats
    in the listing. *)
Theorem get_video_files_ignores_listing_order (E1 E2 : env) (folder : string) :
  casefold E1 = casefold E2 →
  (∀ n, n ∈ listdir E1 folder ↔ n ∈ listdir E2 folder) →
  BatchProcess.get_video_files E1 folder = BatchProcess.get_video_files E2 folder.
Proof. apply get_video_files_by_members. Qed.

(** At two listings of the same three names. *)
Lemma get_video_files_ignores_listing_order_witness :
  BatchProcess.get_video_files (calm_env ["b.mkv"; "a.mp4"; "notes.txt"])
    "input_videos" =
  BatchProcess.get_video_files
    (calm_env ["notes.txt"; "a.mp4"; "b.mkv"; "a.mp4"]) "input_videos".
Proof.
  apply (get_video_files_ignores_listing_order
           (calm_env ["b.mkv"; "a.mp4"; "notes.txt"])
           (calm_env ["notes.txt"; "a.mp4"; "b.mkv"; "a.mp4"]) "input_videos").
  - reflexivity.
  - intros n. cbn [listdir calm_env].
    rewrite !elem_of_cons, !elem_of_nil. tauto.
Defined.


(** ** The shape of a timestamp *)

Section string_facts.

Lemma string_app_cons c s t : String c s +:+ t = String c (s +:+ t).
Proof. reflexivity. Qed.


Lemma string_app_assoc a b c : (a +:+ b) +:+ c = a +:+ b +:+ c.
Proof.
  induction a as [|x a IH]; [done|]. by rewrite !string_app_cons, IH.
Qed.

End string_facts.

Section timestamps.





End timestamps.



(** ** Records without text *)

Section blank.

Lemma filter_none_emitted (f : nat → nat) segs :
  (∀ s, s ∈ segs → emitted s = false) →
  List.filter (λ p : nat * segment, emitted p.2) (imap (λ k s, (f k, s)) segs)
    = [].
Proof.
  revert f. induction segs as [|s segs IH]; intros f Hall; [done|].
  cbn [imap List.filter snd]. rewrite (Hall s) by left.
  apply (IH (f ∘ S)). intros s' Hs'. apply Hall. by right.
Qed.

End blank.

(** X14: a record without segments, or whose segments are all blank after
    trimming, gives an empty subtitle file, and both generators still
    report success. *)
Theorem blank_record_gives_empty_srt
    (E : env) (r : transcription) (p : string) (w : world) :
  (∀ s, s ∈ tr_segments r → emitted s = false) →
  open_raises E p = None →
  BatchProcess.generate_srt_file E r p w = (Ok true, wrote w p (SrtText "")) ∧
  Recognizer.generate_srt_file E r p w = (Ok true, wrote w p (SrtText "")).
Proof.
  intros Hall Hopen.
  change (Recognizer.generate_srt_file E r p w)
    with (BatchProcess.generate_srt_file E r p w).
  rewrite generate_srt_file_run, Hopen. unfold srt_file_of.
  rewrite srt_content_positional. unfold positional_srt.
  by rewrite filter_none_emitted.
Qed.

(** At a record of two blank segments. *)
Lemma blank_record_gives_empty_srt_witness :
  BatchProcess.generate_srt_file (calm_env [])
    (Transcription "" [Segment 0 1 "  "; Segment 1 2 ""])
    "output_transcriptions/a.srt" (stocked []) =
    (Ok true, wrote (stocked []) "output_transcriptions/a.srt" (SrtText "")).
Proof.
  apply (blank_record_gives_empty_srt (calm_env [])
           (Transcription "" [Segment 0 1 "  "; Segment 1 2 ""])
           "output_transcriptions/a.srt" (stocked [])).
  - intros s Hs. repeat (apply elem_of_cons in Hs as [->|Hs]; [reflexivity|]).
    by apply elem_of_nil in Hs.
  - reflexivity.
Defined.

(** ** The search path *)

Section path.

Lemma contains_middle a d b : contains (a +:+ d +:+ b) d = true.
Proof.
  induction a as [|c a IH].
  - change ("" +:+ d +:+ b) with (d +:+ b).
    destruct (d +:+ b) eqn:Hdb; cbn [contains];
      rewrite <- Hdb; fold (Py.startswith (d +:+ b) d);
      by rewrite startswith_app.
  - change (String c a +:+ d +:+ b) with (String c (a +:+ d +:+ b)).
    cbn [contains]. rewrite IH. apply orb_true_r.
Qed.

End path.

(** X15: the update of [PATH] in [setup_environment] is idempotent and
    leaves a value in which the working directory occurs; and it leaves
    [PATH] alone whenever the working directory occurs anywhere in it, be it
    inside a longer entry, since the test is a substring test. *)
Theorem path_setup_is_idempotent (pathsep current_dir current_path : string) :
  contains (path_after_setup pathsep current_dir current_path) current_dir
    = true ∧
  path_after_setup pathsep current_dir
    (path_after_setup pathsep current_dir current_path)
    = path_after_setup pathsep current_dir current_path ∧
  ∀ a b, path_after_setup pathsep current_dir (a +:+ current_dir +:+ b)
           = a +:+ current_dir +:+ b.
Proof.
  assert (contains (path_after_setup pathsep current_dir current_path)
            current_dir = true) as Hin.
  { unfold path_after_setup.
    destruct (contains current_path current_dir) eqn:Hc; cbn [negb];
      [done|]. apply (contains_middle "" current_dir). }
  split; [done|]. split.
  - unfold path_after_setup at 1. by rewrite Hin.
  - intros a b. unfold path_after_setup. by rewrite contains_middle.
Qed.


(** ** The recognizer's own [main] *)



(** ** Plain names and the second run *)

Section suffixes.

Lemma rev_app_spec a b : String.rev_app a b = String.rev a +:+ b.
Proof.
  unfold String.rev. revert b. induction a as [|c a IH]; intros b; [done|].
  cbn [String.rev_app]. rewrite IH, (IH (String c "")).
  by rewrite string_app_assoc.
Qed.

Lemma rev_app_distr a b : String.rev (a +:+ b) = String.rev b +:+ String.rev a.
Proof.
  induction a as [|c a IH].
  - change ("" +:+ b) with b. unfold String.rev at 3. cbn.
    induction (String.rev b) as [|x r IHr]; [done|].
    by rewrite string_app_cons, <- IHr.
  - rewrite string_app_cons. unfold String.rev at 1 3.
    cbn [String.rev_app]. rewrite !rev_app_spec, IH.
    by rewrite string_app_assoc.
Qed.

(** [os.path.join] puts something before its second argument. *)
Lemma join_is_suffix a b : ∃ pre, OsPath.join a b = pre +:+ b.
Proof.
  unfold OsPath.join. repeat case_match.
  - by exists "".
  - by exists a.
  - exists (a +:+ "/"). by rewrite string_app_assoc.
Qed.

Lemma audio_path_is_wav output_dir video_path :
  Py.endswith (audio_path output_dir video_path) ".wav" = true.
Proof.
  unfold audio_path.
  destruct (join_is_suffix output_dir
              (Py.replace (OsPath.stem video_path) " " "_" +:+ "_audio.wav"))
    as [pre ->].
  unfold Py.endswith. rewrite !rev_app_distr. reflexivity.
Qed.

Lemma artifacts_are_not_wav output_folder video_path :
  Py.endswith (txt_artifact output_folder video_path) ".wav" = false ∧
  Py.endswith (json_artifact output_folder video_path) ".wav" = false ∧
  Py.endswith (srt_artifact output_folder video_path) ".wav" = false.
Proof.
  unfold txt_artifact, json_artifact, srt_artifact.
  repeat split;
    match goal with |- context [OsPath.join ?a ?b] =>
      destruct (join_is_suffix a b) as [pre ->] end;
    unfold Py.endswith; rewrite !rev_app_distr; reflexivity.
Qed.

End suffixes.

Section plain.

Lemma replace_space_absent s :
  has_char " " s = false → Py.replace s " " "_" = s.
Proof.
  unfold Py.replace. induction s as [|c s IH]; [done|].
  cbn [has_char Py.replace_go String.prefix]. intros [Hc Hs]%orb_false_iff.
  apply bool_decide_eq_false in Hc.
  destruct (ascii_dec " " c) as [<-|]; [done|]. by rewrite IH.
Qed.

(** No [.txt] starts at a character that is not a dot. *)
Lemma replace_txt_past a b :
  has_char "." a = false →
  Py.replace_go ".txt" ".json" 0 (a +:+ b) =
    a +:+ Py.replace_go ".txt" ".json" 0 b.
Proof.
  induction a as [|c a IH]; [done|].
  cbn [has_char]. intros [Hc Ha]%orb_false_iff.
  apply bool_decide_eq_false in Hc.
  rewrite !string_app_cons. cbn [Py.replace_go String.prefix].
  destruct (ascii_dec "." c) as [<-|]; [done|]. by rewrite IH.
Qed.

(** The only dot of [a ++ "_transcription.txt"] is the one of the suffix. *)
Lemma dot_position a n :
  has_char "." a = false →
  String.get n (a +:+ "_transcription.txt") = Some "."%char →
  n = (String.length a + 14)%nat.
Proof.
  revert n. induction a as [|c a IH]; intros n Ha Hn.
  - change ("" +:+ "_transcription.txt") with "_transcription.txt" in Hn.
    do 19 (destruct n as [|n]; [by (discriminate || reflexivity)|]).
    cbn in Hn. by destruct n.
  - cbn [has_char] in Ha. apply orb_false_iff in Ha as [Hc Ha].
    apply bool_decide_eq_false in Hc.
    rewrite string_app_cons in Hn. destruct n as [|n]; cbn [String.get] in Hn.
    + congruence.
    + cbn [String.length]. apply IH in Hn; [lia|done].
Qed.

Lemma no_early_transcription_txt c a :
  has_char "." (String c a) = false →
  String.prefix "_transcription.txt" (String c a +:+ "_transcription.txt")
    = false.
Proof.
  intros Ha. apply not_true_is_false. intros Hp.
  apply String.prefix_correct in Hp.
  assert (String.get 14 (String c a +:+ "_transcription.txt")
          = Some "."%char) as Hget.
  { pose proof (String.substring_correct1
                  (String c a +:+ "_transcription.txt") 0 18 14 ltac:(lia))
      as Hsub.
    rewrite Nat.add_0_r in Hsub. rewrite <- Hsub.
    cbn [String.length] in Hp. rewrite Hp. reflexivity. }
  apply dot_position in Hget; [|done]. cbn [String.length] in Hget. lia.
Qed.

Lemma replace_transcription_txt a :
  has_char "." a = false →
  Py.replace_go "_transcription.txt" ".srt" 0 (a +:+ "_transcription.txt")
    = a +:+ ".srt".
Proof.
  induction a as [|c a IH]; [done|]. intros Ha.
  pose proof (no_early_transcription_txt c a Ha) as Hp.
  rewrite string_app_cons in Hp |- *.
  cbn [Py.replace_go]. rewrite Hp, IH; [done|].
  cbn [has_char] in Ha. by apply orb_false_iff in Ha as [_ Ha].
Qed.

End plain.

Section sharing.

Lemma join_stem_shape output_folder video_path :
  ∃ pre,
    (has_char "." output_folder = false → has_char "." pre = false) ∧
    ∀ suf, has_char "/" suf = false →
           OsPath.join output_folder (OsPath.stem video_path +:+ suf)
             = pre +:+ OsPath.stem video_path +:+ suf.
Proof.
  pose proof (stem_no_slash video_path) as Hstem.
  assert (∀ suf, has_char "/" suf = false →
                 Py.startswith (OsPath.stem video_path +:+ suf) "/" = false)
    as Hstart.
  { intros suf Hsuf. apply not_true_is_false. intros Hs%startswith_slash.
    rewrite has_char_app, Hstem, Hsuf in Hs. done. }
  destruct (negb (Py.truthy output_folder) || Py.endswith output_folder "/")
    eqn:Hf.
  - exists output_folder. split; [done|]. intros suf Hsuf.
    unfold OsPath.join. by rewrite Hstart, Hf.
  - exists (output_folder +:+ "/"). split.
    + intros Hout. by rewrite has_char_app, Hout.
    + intros suf Hsuf. unfold OsPath.join.
      by rewrite Hstart, Hf, string_app_assoc.
Qed.

Lemma plain_shares_stem output_folder video_path :
  has_char " " (OsPath.stem video_path) = false →
  has_char "." (OsPath.stem video_path) = false →
  has_char "." output_folder = false →
  shares_stem output_folder video_path.
Proof.
  intros Hsp Hdot Hout.
  destruct (join_stem_shape output_folder video_path) as (pre & Hpre & Hjoin).
  specialize (Hpre Hout).
  assert (output_path output_folder video_path
          = txt_artifact output_folder video_path) as Ho.
  { unfold output_path, txt_artifact. by rewrite replace_space_absent. }
  assert (has_char "." (pre +:+ OsPath.stem video_path) = false) as Hnd
    by (by rewrite has_char_app, Hpre, Hdot).
  split; [done|]. unfold json_path, srt_path. rewrite Ho.
  unfold txt_artifact, json_artifact, srt_artifact.
  rewrite !Hjoin by done. rewrite <- !string_app_assoc. split.
  - change (Py.replace ?s ".txt" ".json")
      with (Py.replace_go ".txt" ".json" 0 s).
    by rewrite replace_txt_past.
  - change (Py.replace ?s "_transcription.txt" ".srt")
      with (Py.replace_go "_transcription.txt" ".srt" 0 s).
    by rewrite replace_transcription_txt.
Qed.

End sharing.

(** X17: for an output folder without a dot and a video whose stem holds
    neither a space nor a dot, the recognizer writes the text report, the
    JSON dump and its subtitle file at the very paths the driver tests and
    writes. *)
Theorem plain_names_share_stem (output_folder video_path : string) :
  has_char " " (OsPath.stem video_path) = false →
  has_char "." (OsPath.stem video_path) = false →
  has_char "." output_folder = false →
  shares_stem output_folder video_path.
Proof. apply plain_shares_stem. Qed.

(** At [lecture_01.mp4]. *)
Lemma plain_names_share_stem_witness :
  json_path "output_transcriptions" "input_videos/lecture_01.mp4"
    = "output_transcriptions/lecture_01_transcription.json" ∧
  srt_path "output_transcriptions" "input_videos/lecture_01.mp4"
    = "output_transcriptions/lecture_01.srt".
Proof.
  destruct (plain_names_share_stem "output_transcriptions"
              "input_videos/lecture_01.mp4" eq_refl eq_refl eq_refl)
    as (_ & -> & ->).
  split; reflexivity.
Defined.

Section idempotence.
Variable E : env.

Lemma endswith_differs p q s :
  Py.endswith p s = true → Py.endswith q s = false → p ≠ q.
Proof. intros Hp Hq ->. congruence. Qed.

(** [process_video] removes nothing but the waveform. *)
Lemma pv_case_present video_path output_dir clean w res w' p :
  pv_case E video_path output_dir clean w res w' →
  p ≠ audio_path output_dir video_path →
  present w p → present w' p.
Proof.
  intros Hcase Hne Hp.
  assert (present (after_transcribe output_dir video_path w) p) as Hp'.
  { unfold present, after_transcribe in *. cbn [files].
    rewrite lookup_insert_is_Some'. by right. }
  destruct Hcase; cbn [logged files]; try done;
    try (by apply after_save_present).
  unfold present. cbn [files]. rewrite lookup_delete_ne by done.
  by apply after_save_present.
Qed.

Lemma process_single_video_keeps video_path output_folder w p :
  Py.endswith p ".wav" = false →
  present w p →
  present (BatchProcess.process_single_video E video_path output_folder w).2 p.
Proof.
  intros Hwav Hp.
  destruct (load_model_raises E) as [msg|] eqn:Hload.
  { by rewrite (process_single_video_no_model E _ _ _ msg). }
  destruct (decide (already_processed w output_folder video_path)) as [Hd|Hd].
  { by rewrite process_single_video_skip. }
  rewrite process_single_video_run by done.
  destruct (process_video_cases E video_path output_folder true
              (World (files w) (trace w ++ [LoadModel])))
    as (res & w' & -> & Hcase).
  assert (present w' p) as Hp'.
  { apply (pv_case_present _ _ _ _ _ _ p) in Hcase; [done| |done].
    intros ->. pose proof (audio_path_is_wav output_folder video_path).
    congruence. }
  destruct res as [[? ? r|error ?]|]; [|done..].
  destruct (open_raises E (srt_artifact output_folder video_path));
    cbn [snd]; unfold present, wrote, logged in *; cbn [files]; [done|].
  rewrite lookup_insert_is_Some'. by right.
Qed.

(** In an environment without faults, a present video with a plain name has
    its three artifacts after one call. *)
Lemma process_single_video_establishes video_path output_folder w :
  fault_free E →
  shares_stem output_folder video_path →
  present w video_path →
  already_processed
    (BatchProcess.process_single_video E video_path output_folder w).2
    output_folder video_path.
Proof.
  intros (_ & Hload & Hdec & Htr & Hopen & Hrm) (Ho & Hj & Hs) Hv.
  destruct (decide (already_processed w output_folder video_path)) as [Hd|Hd].
  { by rewrite process_single_video_skip. }
  rewrite process_single_video_run by done.
  destruct (Htr (audio_path output_folder video_path)) as [r Hr].
  rewrite (process_video_transcribed E _ _ r) by done.
  cbv zeta. rewrite Hrm, Hopen. cbn [snd].
  destruct (artifacts_are_not_wav output_folder video_path) as (Ht & Hjs & Hsr).
  pose proof (audio_path_is_wav output_folder video_path) as Hwav.
  assert (audio_path output_folder video_path ≠ txt_artifact output_folder video_path)
    by (by eapply endswith_differs).
  assert (audio_path output_folder video_path ≠ json_artifact output_folder video_path)
    by (by eapply endswith_differs).
  unfold already_processed, present, wrote, after_save.
  rewrite !Hopen. unfold wrote. cbn [files].
  rewrite Ho, Hj, Hs.
  repeat split; rewrite lookup_insert_is_Some'; [right|right|by left];
    rewrite lookup_delete_is_Some; (split; [done|]);
    rewrite !lookup_insert_is_Some'; auto.
Qed.

Lemma process_each_establishes video_files results w :
  fault_free E →
  (∀ v, v ∈ video_files →
        present w v ∧ shares_stem "output_transcriptions" v ∧
        Py.startswith v "output_transcriptions/" = false) →
  let w' := (BatchProcess.process_each E video_files "output_transcriptions"
               results w).2 in
  (∀ p, Py.endswith p ".wav" = false → present w p → present w' p) ∧
  (∀ v, v ∈ video_files → already_processed w' "output_transcriptions" v).
Proof.
  intros Hfree. revert results w.
  induction video_files as [|v vs IH]; intros results w Hall.
  { split; [done|]. intros v Hv. by apply elem_of_nil in Hv. }
  cbn [BatchProcess.process_each]. rewrite bind_run.
  destruct (process_single_video_returns E v "output_transcriptions" w)
    as (flag & message & w1 & Hrun).
  pose proof (process_single_video_establishes v "output_transcriptions" w Hfree)
    as Hest.
  pose proof (process_single_video_keeps v "output_transcriptions" w) as Hkeep.
  pose proof (process_single_video_frame E v "output_transcriptions" w) as Hframe.
  rewrite Hrun in *. cbn [snd] in Hest, Hkeep, Hframe.
  destruct (Hall v ltac:(left)) as (Hv & Hsh & _).
  specialize (Hest Hsh Hv).
  destruct (IH (results ++ [(OsPath.name v, flag, message)]) w1) as [IHk IHa].
  { intros v' Hv'. destruct (Hall v' ltac:(by right)) as (Hp' & Hsh' & Hout').
    split; [|done]. unfold present. rewrite Hframe; [done|].
    intros Hin%touched_in_output. congruence. }
  split.
  - intros p Hwav Hp. by apply IHk, Hkeep.
  - intros v' [->|Hv']%elem_of_cons; [|by apply IHa].
    destruct (artifacts_are_not_wav "output_transcriptions" v) as (? & ? & ?).
    destruct Hest as (? & ? & ?). repeat split; by apply IHk.
Qed.

End idempotence.

Section two_runs.
Variable E : env.

Lemma join_input n :
  has_char "/" n = false →
  OsPath.join "input_videos" n = "input_videos/" +:+ n.
Proof.
  intros Hn. unfold OsPath.join.
  destruct (Py.startswith n "/") eqn:Hs; [|done].
  apply startswith_slash in Hs. congruence.
Qed.

Lemma discovered_outside_output v :
  (∀ n, n ∈ listdir E "input_videos" → has_char "/" n = false) →
  v ∈ BatchProcess.get_video_files E "input_videos" →
  Py.startswith v "output_transcriptions/" = false.
Proof.
  intros Hls (n & Hn & -> & _)%elem_of_get_video_files.
  by rewrite join_input by auto.
Qed.

(** The world [main] leaves once it reached the loop. *)
Lemma main_world w :
  ffmpeg_probe E = true →
  load_model_raises E = None →
  BatchProcess.get_video_files E "input_videos" ≠ [] →
  (BatchProcess.main E w).2 =
    (BatchProcess.process_each E
       (BatchProcess.get_video_files E "input_videos")
       "output_transcriptions" []
       (World (files w) (trace w ++ [LoadModel]))).2.
Proof.
  intros Hff Hload Hvs. unfold BatchProcess.main, BatchProcess.setup_environment.
  rewrite bind_run. cbn [mret M_ret]. rewrite Hff. cbn [negb].
  destruct (BatchProcess.get_video_files E "input_videos") as [|v vs]; [done|].
  rewrite bind_run. unfold try_except. rewrite bind_run, load_model_run, Hload.
  cbn [mret M_ret negb]. rewrite bind_run.
  destruct (process_each_results E (v :: vs) "output_transcriptions" []
              (World (files w) (trace w ++ [LoadModel])))
    as (new & w' & evs & -> & _). done.
Qed.

(** [main] over videos that are all processed already. *)
Lemma main_on_processed w :
  ffmpeg_probe E = true →
  load_model_raises E = None →
  (∀ v, v ∈ BatchProcess.get_video_files E "input_videos" →
        already_processed w "output_transcriptions" v) →
  ∃ w',
    BatchProcess.main E w =
      (Ok (match BatchProcess.get_video_files E "input_videos" with
           | [] => NoVideos
           | video_files =>
               Summary (skip_result <$> video_files) (length video_files) 0
           end), w') ∧
    files w' = files w.
Proof.
  intros Hff Hload Hall. unfold BatchProcess.main, BatchProcess.setup_environment.
  rewrite bind_run. cbn [mret M_ret]. rewrite Hff. cbn [negb].
  destruct (BatchProcess.get_video_files E "input_videos") as [|v vs];
    [by exists w|].
  rewrite bind_run. unfold try_except. rewrite bind_run, load_model_run, Hload.
  cbn [mret M_ret negb]. rewrite bind_run.
  rewrite process_each_skips by done.
  cbn [app]. rewrite filter_successes_skipped, length_fmap, Nat.sub_diag.
  by eexists.
Qed.

End two_runs.

(** X18: the batch is idempotent on plain names.  In an environment where
    nothing fails, over a listing of plain file names, if every discovered
    video is on disk and is named alike by the recognizer and the driver,
    then after a first run a second run skips every video, reports no
    failure and changes no file. *)
Theorem batch_is_idempotent_on_plain_names (E : env) (w0 : world) :
  fault_free E →
  (∀ n, n ∈ listdir E "input_videos" → has_char "/" n = false) →
  (∀ v, v ∈ BatchProcess.get_video_files E "input_videos" →
        present w0 v ∧ shares_stem "output_transcriptions" v) →
  let w1 := (BatchProcess.main E w0).2 in
  ∃ w2,
    BatchProcess.main E w1 =
      (Ok (match BatchProcess.get_video_files E "input_videos" with
           | [] => NoVideos
           | video_files =>
               Summary (skip_result <$> video_files) (length video_files) 0
           end), w2) ∧
    files w2 = files w1.
Proof.
  intros Hfree Hls Hall w1. pose proof Hfree as (Hff & Hload & _).
  apply main_on_processed; [done..|]. intros v Hv. subst w1.
  destruct (decide (BatchProcess.get_video_files E "input_videos" = []))
    as [Hnil|Hne].
  { rewrite Hnil in Hv. by apply elem_of_nil in Hv. }
  rewrite main_world by done.
  refine (proj2 (process_each_establishes E _ [] _ Hfree _) v Hv).
  intros v' Hv'. destruct (Hall v' Hv') as [? ?].
  split; [done|]. split; [done|]. by apply (discovered_outside_output E).
Qed.

(** At a folder with two plain videos. *)
Lemma batch_is_idempotent_on_plain_names_witness :
  let E := calm_env ["b.mkv"; "a.mp4"] in
  let w1 :=
    (BatchProcess.main E
       (stocked ["input_videos/a.mp4"; "input_videos/b.mkv"])).2 in
  ∃ w2,
    BatchProcess.main E w1 =
      (Ok (Summary [("a.mp4", true, "Already processed: a");
                    ("b.mkv", true, "Already processed: b")] 2 0), w2) ∧
    files w2 = files w1.
Proof.
  intros E w1.
  assert (fault_free E) as Hfree by (repeat split; intros; by eexists).
  assert (∀ n, n ∈ listdir E "input_videos" → has_char "/" n = false) as Hls.
  { intros n Hn. change (n ∈ ["b.mkv"; "a.mp4"]) in Hn.
    repeat (apply elem_of_cons in Hn as [->|Hn]; [reflexivity|]).
    destruct (proj1 (elem_of_nil _) Hn). }
  assert (BatchProcess.get_video_files E "input_videos"
          = ["input_videos/a.mp4"; "input_videos/b.mkv"]) as Hfiles
    by (vm_compute; reflexivity).
  assert (∀ v, v ∈ BatchProcess.get_video_files E "input_videos" →
               present (stocked ["input_videos/a.mp4"; "input_videos/b.mkv"]) v ∧
               shares_stem "output_transcriptions" v) as Hall.
  { rewrite Hfiles. intros v Hv.
    repeat (apply elem_of_cons in Hv as [->|Hv];
            [split; [vm_compute; eexists; reflexivity
                    |repeat split; vm_compute; reflexivity]|]).
    destruct (proj1 (elem_of_nil _) Hv). }
  pose proof (batch_is_idempotent_on_plain_names E
                (stocked ["input_videos/a.mp4"; "input_videos/b.mkv"])
                Hfree Hls Hall) as Hrun.
  cbv zeta in Hrun. rewrite Hfiles in Hrun. exact Hrun.
Defined.
